(** * A shallow embedding of [app.py]

    The backend is a Flask application whose handlers glue together three
    outside services: a text-generation model, a maps API and a Socket.IO
    transport.  Every handler is embedded as a function in a small
    state-and-exception monad; the outside services are scripted replies
    that the handler consumes in order and a trace that records every call
    it makes.

    Python values are the JSON-shaped values the handlers receive
    ([request.json], [response.json()], the session); Python [str] is a Rocq
    [string] holding the UTF-8 bytes of the text. *)

From Stdlib Require Import ZArith String Ascii List Bool Lia Sorted Permutation.
From Stdlib Require Import Floats.SpecFloat.
From stdpp Require Import base gmap strings list.

Local Open Scope string_scope.
Local Open Scope list_scope.
Local Open Scope Z_scope.

(** ** Python strings *)

Module PyStr.

Definition code (c : ascii) : N := N_of_ascii c.

(** The double-quote and newline characters, by code. *)
Definition dquote : ascii := ascii_of_N 34.
Definition newline : ascii := ascii_of_N 10.
Definition nl : string := String newline EmptyString.
Definition quoted (s : string) : string :=
  String dquote s ++ String dquote EmptyString.

(** [str.isspace] on a one-byte character: tab, LF, VT, FF, CR, the four
    separators FS GS RS US, and the space. *)
Definition is_space1 (c : ascii) : bool :=
  let n := code c in
  ((9 <=? n) && (n <=? 13) || (28 <=? n) && (n <=? 32))%N.

(** ... on a two-byte character: U+0085 and U+00A0. *)
Definition is_space2 (c1 c2 : ascii) : bool :=
  ((code c1 =? 194) && ((code c2 =? 133) || (code c2 =? 160)))%N.

(** ... on a three-byte character: U+1680, U+2000..U+200A, U+2028, U+2029,
    U+202F, U+205F and U+3000. *)
Definition is_space3 (c1 c2 c3 : ascii) : bool :=
  let '(a, b, c) := (code c1, code c2, code c3) in
  ((a =? 225) && (b =? 154) && (c =? 128)
   || (a =? 226) && (b =? 128)
      && ((128 <=? c) && (c <=? 138) || (c =? 168) || (c =? 169) || (c =? 175))
   || (a =? 226) && (b =? 129) && (c =? 159)
   || (a =? 227) && (b =? 128) && (c =? 128))%N.

(** [lstrip]: drop leading whitespace characters. *)
Fixpoint lstrip (s : list ascii) : list ascii :=
  match s with
  | c1 :: r1 =>
      if is_space1 c1 then lstrip r1 else
      match r1 with
      | c2 :: r2 =>
          if is_space2 c1 c2 then lstrip r2 else
          match r2 with
          | c3 :: r3 => if is_space3 c1 c2 c3 then lstrip r3 else s
          | [] => s
          end
      | [] => s
      end
  | [] => []
  end.

(** The same scan on the reversed text, where the bytes of a character
    come last byte first. *)
Fixpoint lstrip_rev (s : list ascii) : list ascii :=
  match s with
  | c1 :: r1 =>
      if is_space1 c1 then lstrip_rev r1 else
      match r1 with
      | c2 :: r2 =>
          if is_space2 c2 c1 then lstrip_rev r2 else
          match r2 with
          | c3 :: r3 => if is_space3 c3 c2 c1 then lstrip_rev r3 else s
          | [] => s
          end
      | [] => s
      end
  | [] => []
  end.

Definition rstrip (s : list ascii) : list ascii := rev (lstrip_rev (rev s)).

(** [s.strip()] *)
Definition strip (s : string) : string :=
  string_of_list_ascii (rstrip (lstrip (list_ascii_of_string s))).

(** [s.split("\n")]: never empty, [""] for the empty string. *)
Fixpoint split_nl (s : string) : list string :=
  match s with
  | EmptyString => [EmptyString]
  | String c r =>
      if Ascii.eqb c newline then EmptyString :: split_nl r
      else match split_nl r with
           | l :: ls => String c l :: ls
           | [] => [String c EmptyString]
           end
  end.

(** [s * n] for a non-negative count. *)
Fixpoint repeat_str (s : string) (n : nat) : string :=
  match n with
  | O => EmptyString
  | S n => s ++ repeat_str s n
  end.

(** The characters of a string, one string per code point: the leading
    byte of a UTF-8 sequence says how many bytes follow. *)
Definition seq_len (c : ascii) : nat :=
  let n := code c in
  if (n <? 192)%N then 1%nat else if (n <? 224)%N then 2%nat
  else if (n <? 240)%N then 3%nat else 4%nat.

Fixpoint take_str (n : nat) (s : string) : string * string :=
  match n, s with
  | S n, String c r => let '(a, b) := take_str n r in (String c a, b)
  | _, _ => (EmptyString, s)
  end.

Fixpoint chars_fuel (fuel : nat) (s : string) : list string :=
  match fuel, s with
  | S fuel, String c r =>
      let '(a, b) := take_str (seq_len c - 1) r in
      String c a :: chars_fuel fuel b
  | _, _ => []
  end.

Definition chars (s : string) : list string := chars_fuel (String.length s) s.

(** A text made of whitespace characters only (the empty text too). *)
Fixpoint all_space (s : list ascii) : bool :=
  match s with
  | [] => true
  | c1 :: r1 =>
      if is_space1 c1 then all_space r1 else
      match r1 with
      | c2 :: r2 =>
          if is_space2 c1 c2 then all_space r2 else
          match r2 with
          | c3 :: r3 => is_space3 c1 c2 c3 && all_space r3
          | [] => false
          end
      | [] => false
      end
  end.

Definition whitespace_only (s : string) : bool := all_space (list_ascii_of_string s).

End PyStr.

(** ** Python values *)

(** The values the handlers see: what [json.loads], [request.json] and
    [response.json()] produce, and what the handlers build from them.  A
    [dict] keeps its insertion order and has [str] keys; an [int] is
    unbounded; a [float] is an IEEE-754 binary64 number. *)
#[warnings="-register-all"]
Inductive pyval :=
| PNone
| PBool (b : bool)
| PInt (n : Z)
| PFloat (f : spec_float)
| PStr (s : string)
| PList (l : list pyval)
| PDict (kvs : list (string * pyval)).

(** The exceptions that can leave a handler. *)
Inductive exn :=
| UpstreamError (msg : string)   (* raised by the model client or by [requests] *)
| AttributeError
| TypeError
| KeyError
| IndexError.

Inductive outcome (A : Type) :=
| Ret (a : A)
| Raise (e : exn).
Arguments Ret {A} a.
Arguments Raise {A} e.

Module Py.

(** *** dict *)

Fixpoint dict_get (k : string) (kvs : list (string * pyval)) : option pyval :=
  match kvs with
  | [] => None
  | (k', v) :: r => if String.eqb k k' then Some v else dict_get k r
  end.

(** [d[k] = v]: an existing key keeps its place, a new key goes last. *)
Fixpoint dict_set (k : string) (v : pyval) (kvs : list (string * pyval))
  : list (string * pyval) :=
  match kvs with
  | [] => [(k, v)]
  | (k', v') :: r =>
      if String.eqb k k' then (k', v) :: r else (k', v') :: dict_set k v r
  end.

Definition keys (kvs : list (string * pyval)) : list string := map fst kvs.

(** *** binary64 *)

Definition prec : Z := 53.
Definition emax : Z := 1024.

(** The float nearest to [m * 10^e10] (ties to even), as [float()] gives
    for the decimal literal with digits [m]. *)
Definition float_of_decimal (neg : bool) (m : Z) (e10 : Z) : spec_float :=
  match m with
  | Zpos p =>
      if 0 <=? e10 then
        match Zpos p * 10 ^ e10 with
        | Zpos q => binary_round prec emax neg q 0
        | _ => S754_nan
        end
      else
        let '(q, e, l) := SFdiv_core_binary prec emax (Zpos p) 0 (10 ^ (- e10)) 0 in
        binary_round_aux prec emax neg q e l
  | _ => S754_zero neg
  end.

Definition float_of_int (n : Z) : spec_float := binary_normalize prec emax n 0 false.

(** *** truth value, [bool(v)] *)
Definition truthy (v : pyval) : bool :=
  match v with
  | PNone => false
  | PBool b => b
  | PInt n => negb (n =? 0)
  | PFloat (S754_zero _) => false
  | PFloat _ => true
  | PStr s => negb (String.eqb s "")
  | PList l => match l with [] => false | _ => true end
  | PDict kvs => match kvs with [] => false | _ => true end
  end.

(** *** [v.get(k, default)]: only a dict has the method. *)
Definition get (v : pyval) (k : string) (default : pyval) : outcome pyval :=
  match v with
  | PDict kvs => Ret (match dict_get k kvs with Some x => x | None => default end)
  | _ => Raise AttributeError
  end.

(** *** [v[k]] for a string key. *)
Definition getitem (v : pyval) (k : string) : outcome pyval :=
  match v with
  | PDict kvs => match dict_get k kvs with Some x => Ret x | None => Raise KeyError end
  | _ => Raise TypeError
  end.

(** *** [v[0]] *)
Definition getitem0 (v : pyval) : outcome pyval :=
  match v with
  | PList (x :: _) => Ret x
  | PList [] => Raise IndexError
  | PStr s => match PyStr.chars s with c :: _ => Ret (PStr c) | [] => Raise IndexError end
  | PDict _ => Raise KeyError
  | _ => Raise TypeError
  end.

(** *** [v * n] for an int [n >= 0] *)
Definition mul (v : pyval) (n : nat) : outcome pyval :=
  match v with
  | PInt z => Ret (PInt (z * Z.of_nat n))
  | PBool b => Ret (PInt ((if b then 1 else 0) * Z.of_nat n))
  | PFloat f => Ret (PFloat (SFmul prec emax f (float_of_int (Z.of_nat n))))
  | PStr s => Ret (PStr (PyStr.repeat_str s n))
  | PList l => Ret (PList (concat (repeat l n)))
  | PNone | PDict _ => Raise TypeError
  end.

(** *** [for x in v]: the items a loop or [list.extend] sees. *)
Definition iter (v : pyval) : outcome (list pyval) :=
  match v with
  | PList l => Ret l
  | PDict kvs => Ret (map PStr (keys kvs))
  | PStr s => Ret (map PStr (PyStr.chars s))
  | _ => Raise TypeError
  end.

(** *** [isinstance(v, str)] *)
Definition is_str (v : pyval) : bool :=
  match v with PStr _ => true | _ => false end.

(** *** [v == s] for a [str] literal [s] *)
Definition eq_str (v : pyval) (s : string) : bool :=
  match v with PStr t => String.eqb t s | _ => false end.

End Py.

(** ** [json.loads] *)

(** The decoder of Python's standard library, as the handlers call it:
    strict mode, the grammar of RFC 8259 plus the three literals [NaN],
    [Infinity] and [-Infinity], surrounding white space allowed, anything
    after the value refused.  Not modelled: the interpreter's recursion
    limit and its limit on the number of digits of an [int]. *)
Module Json.

Import PyStr.

Inductive parsed (A : Type) :=
| Parsed (a : A) (rest : string)
| Malformed
| OutOfFuel.
Arguments Parsed {A} a rest.
Arguments Malformed {A}.
Arguments OutOfFuel {A}.

Definition is_ws (c : ascii) : bool :=
  let n := code c in ((n =? 32) || (n =? 9) || (n =? 10) || (n =? 13))%N.

Fixpoint skip_ws (s : string) : string :=
  match s with
  | String c r => if is_ws c then skip_ws r else s
  | EmptyString => s
  end.

Definition is_digit (c : ascii) : bool :=
  let n := code c in ((48 <=? n) && (n <=? 57))%N.

Definition digit (c : ascii) : Z := Z.of_N (code c) - 48.

(** The longest run of decimal digits at the head of [s]. *)
Fixpoint digits (s : string) : list Z * string :=
  match s with
  | String c r =>
      if is_digit c then let '(ds, r') := digits r in (digit c :: ds, r')
      else ([], s)
  | EmptyString => ([], s)
  end.

Definition of_digits (ds : list Z) : Z := fold_left (fun a d => 10 * a + d) ds 0.

(** [s] without its prefix [p], when it starts with [p]. *)
Fixpoint starts_with (p s : string) : option string :=
  match p, s with
  | EmptyString, _ => Some s
  | String a p', String b s' => if Ascii.eqb a b then starts_with p' s' else None
  | String _ _, EmptyString => None
  end.

(** A number: an optional minus sign; a zero, or a non-zero digit and
    any digits; then optionally a point and one digit at least; then
    optionally [e] or [E], a sign and one digit at least.  Each part takes
    as much as it can and leaves the rest. *)
Definition minus_sign (s : string) : bool * string :=
  match s with
  | String c r => if Ascii.eqb c "-" then (true, r) else (false, s)
  | EmptyString => (false, s)
  end.

Definition int_part (s : string) : option (list Z * string) :=
  match s with
  | String c r =>
      if is_digit c then
        if Ascii.eqb c "0" then Some ([0], r) else Some (digits s)
      else None
  | EmptyString => None
  end.

Definition frac_part (s : string) : list Z * string :=
  match s with
  | String d r =>
      if Ascii.eqb d "." then
        match digits r with
        | ([], _) => ([], s)
        | (ds, r') => (ds, r')
        end
      else ([], s)
  | EmptyString => ([], s)
  end.

Definition exp_part (s : string) : option Z * string :=
  match s with
  | String e r =>
      if Ascii.eqb e "e" || Ascii.eqb e "E" then
        let '(eneg, r1) := minus_sign r in
        let r2 :=
          match r with
          | String g t => if Ascii.eqb g "+" then t else r1
          | EmptyString => r1
          end in
        match digits r2 with
        | ([], _) => (None, s)
        | (ds, r3) => (Some (if eneg then - of_digits ds else of_digits ds), r3)
        end
      else (None, s)
  | EmptyString => (None, s)
  end.

(** It is an [int] when it has neither fraction nor exponent, a [float]
    otherwise. *)
Definition number (s : string) : option (pyval * string) :=
  let '(neg, s1) := minus_sign s in
  match int_part s1 with
  | Some (ip, s2) =>
      let '(fp, s3) := frac_part s2 in
      let '(ex, s4) := exp_part s3 in
      match fp, ex with
      | [], None => Some (PInt (if neg then - of_digits ip else of_digits ip), s4)
      | _, _ =>
          let e10 := match ex with Some e => e | None => 0 end in
          Some (PFloat (Py.float_of_decimal neg (of_digits (ip ++ fp))
                          (e10 - Z.of_nat (length fp))), s4)
      end
  | None => None
  end.

(** *** strings *)

Definition hex (c : ascii) : option Z :=
  let n := Z.of_N (code c) in
  if (48 <=? n) && (n <=? 57) then Some (n - 48)
  else if (97 <=? n) && (n <=? 102) then Some (n - 87)
  else if (65 <=? n) && (n <=? 70) then Some (n - 55)
  else None.

Definition hex4 (a b c d : ascii) : option Z :=
  match hex a, hex b, hex c, hex d with
  | Some w, Some x, Some y, Some z => Some (((w * 16 + x) * 16 + y) * 16 + z)
  | _, _, _, _ => None
  end.

Definition byte (n : Z) : ascii := ascii_of_N (Z.to_N n).

(** The UTF-8 bytes of a code point (a lone surrogate gets the three-byte
    form). *)
Definition utf8 (u : Z) (tail : string) : string :=
  if u <? 128 then String (byte u) tail
  else if u <? 2048 then
    String (byte (192 + u / 64)) (String (byte (128 + u mod 64)) tail)
  else if u <? 65536 then
    String (byte (224 + u / 4096))
      (String (byte (128 + (u / 64) mod 64)) (String (byte (128 + u mod 64)) tail))
  else
    String (byte (240 + u / 262144))
      (String (byte (128 + (u / 4096) mod 64))
         (String (byte (128 + (u / 64) mod 64)) (String (byte (128 + u mod 64)) tail))).

Definition simple_escape (c : ascii) : option ascii :=
  let n := code c in
  if (n =? 34)%N then Some dquote
  else if (n =? 92)%N then Some "\"%char
  else if (n =? 47)%N then Some "/"%char
  else if (n =? 98)%N then Some (ascii_of_N 8)
  else if (n =? 102)%N then Some (ascii_of_N 12)
  else if (n =? 110)%N then Some (ascii_of_N 10)
  else if (n =? 114)%N then Some (ascii_of_N 13)
  else if (n =? 116)%N then Some (ascii_of_N 9)
  else None.

(** The text of a string literal, read from just after its opening quote
    up to and including the closing one. *)
Fixpoint scan_string (s : string) : option (string * string) :=
  match s with
  | EmptyString => None
  | String c r =>
      if Ascii.eqb c dquote then Some (EmptyString, r)
      else if Ascii.eqb c "\" then
        match r with
        | String e r1 =>
            if Ascii.eqb e "u" then
              match r1 with
              | String h1 (String h2 (String h3 (String h4 r2))) =>
                  match hex4 h1 h2 h3 h4 with
                  | None => None
                  | Some u =>
                      let single :=
                        match scan_string r2 with
                        | Some (t, rest) => Some (utf8 u t, rest)
                        | None => None
                        end in
                      if (55296 <=? u) && (u <=? 56319) then
                        match r2 with
                        | String b (String v (String g1 (String g2 (String g3 (String g4 r3))))) =>
                            if Ascii.eqb b "\" && Ascii.eqb v "u" then
                              match hex4 g1 g2 g3 g4 with
                              | None => None
                              | Some u2 =>
                                  if (56320 <=? u2) && (u2 <=? 57343) then
                                    match scan_string r3 with
                                    | Some (t, rest) =>
                                        Some (utf8 (65536 + ((u - 55296) * 1024 + (u2 - 56320))) t, rest)
                                    | None => None
                                    end
                                  else single
                              end
                            else single
                        | String b (String v _) =>
                            if Ascii.eqb b "\" && Ascii.eqb v "u" then None else single
                        | _ => single
                        end
                      else single
                  end
              | _ => None
              end
            else
              match simple_escape e with
              | Some x =>
                  match scan_string r1 with
                  | Some (t, rest) => Some (String x t, rest)
                  | None => None
                  end
              | None => None
              end
        | EmptyString => None
        end
      else if (code c <? 32)%N then None
      else
        match scan_string r with
        | Some (t, rest) => Some (String c t, rest)
        | None => None
        end
  end.

(** *** values *)

(** The elements of an array after its first bracket, [s] standing at
    the start of an element; [pv] reads one value. *)
Fixpoint elements (pv : string -> parsed pyval) (fuel : nat) (s : string)
    (acc : list pyval) : parsed pyval :=
  match fuel with
  | O => OutOfFuel
  | S fuel =>
      match pv s with
      | Parsed v r =>
          match skip_ws r with
          | String c r' =>
              if Ascii.eqb c "," then elements pv fuel (skip_ws r') (v :: acc)
              else if Ascii.eqb c "]" then Parsed (PList (rev (v :: acc))) r'
              else Malformed
          | EmptyString => Malformed
          end
      | Malformed => Malformed
      | OutOfFuel => OutOfFuel
      end
  end.

(** The members of an object, [s] standing where a key must start.  A
    repeated key keeps its first place and takes the last value. *)
Fixpoint members (pv : string -> parsed pyval) (fuel : nat) (s : string)
    (acc : list (string * pyval)) : parsed pyval :=
  match fuel with
  | O => OutOfFuel
  | S fuel =>
      match s with
      | String q r0 =>
          if Ascii.eqb q dquote then
            match scan_string r0 with
            | Some (k, r1) =>
                match skip_ws r1 with
                | String c r2 =>
                    if Ascii.eqb c ":" then
                      match pv (skip_ws r2) with
                      | Parsed v r3 =>
                          match skip_ws r3 with
                          | String d r4 =>
                              if Ascii.eqb d ","
                              then members pv fuel (skip_ws r4) (Py.dict_set k v acc)
                              else if Ascii.eqb d "}"
                              then Parsed (PDict (Py.dict_set k v acc)) r4
                              else Malformed
                          | EmptyString => Malformed
                          end
                      | Malformed => Malformed
                      | OutOfFuel => OutOfFuel
                      end
                    else Malformed
                | EmptyString => Malformed
                end
            | None => Malformed
            end
          else Malformed
      | EmptyString => Malformed
      end
  end.

Definition literal (p : string) (v : pyval) (s : string) : parsed pyval :=
  match starts_with p s with
  | Some r => Parsed v r
  | None => Malformed
  end.

(** One value at the head of [s]. *)
Fixpoint value (fuel : nat) (s : string) : parsed pyval :=
  match fuel with
  | O => OutOfFuel
  | S fuel =>
      match s with
      | EmptyString => Malformed
      | String c r =>
          if Ascii.eqb c dquote then
            match scan_string r with
            | Some (t, rest) => Parsed (PStr t) rest
            | None => Malformed
            end
          else if Ascii.eqb c "{" then
            match skip_ws r with
            | String d r' =>
                if Ascii.eqb d "}" then Parsed (PDict []) r'
                else members (value fuel) (S (String.length r)) (String d r') []
            | EmptyString => Malformed
            end
          else if Ascii.eqb c "[" then
            match skip_ws r with
            | String d r' =>
                if Ascii.eqb d "]" then Parsed (PList []) r'
                else elements (value fuel) (S (String.length r)) (String d r') []
            | EmptyString => Malformed
            end
          else if Ascii.eqb c "n" then literal "null" PNone s
          else if Ascii.eqb c "t" then literal "true" (PBool true) s
          else if Ascii.eqb c "f" then literal "false" (PBool false) s
          else
            match number s with
            | Some (v, rest) => Parsed v rest
            | None =>
                if Ascii.eqb c "N" then literal "NaN" (PFloat S754_nan) s
                else if Ascii.eqb c "I"
                then literal "Infinity" (PFloat (S754_infinity false)) s
                else if Ascii.eqb c "-"
                then literal "-Infinity" (PFloat (S754_infinity true)) s
                else Malformed
            end
      end
  end.

(** [json.loads(s)]: [None] stands for [JSONDecodeError]. *)
Definition loads (s : string) : option pyval :=
  match starts_with (utf8 65279 EmptyString) s with
  | Some _ => None
  | None =>
      match value (S (String.length s)) (skip_ws s) with
      | Parsed v r =>
          match skip_ws r with
          | EmptyString => Some v
          | String _ _ => None
          end
      | _ => None
      end
  end.

(** A reader of one value that, on texts of at most [n] characters, never
    runs out of fuel and always consumes something. *)
Definition progresses (n : nat) (pv : string -> parsed pyval) : Prop :=
  forall s, (String.length s <= n)%nat ->
    pv s <> OutOfFuel /\ forall v r, pv s = Parsed v r -> (String.length r < String.length s)%nat.

End Json.

(** ** The outside world and the handler monad *)

(** What an outside service answers to one call: a value, or a failure
    that the client library raises as an exception with a message. *)
Inductive reply (A : Type) :=
| Reply (a : A)
| Fault (msg : string).
Arguments Reply {A} a.
Arguments Fault {A} msg.

(** A prompt is a fixed template with holes; it is recorded as the template
    and the values interpolated into it. *)
Inductive prompt :=
| PredictPrompt (description : string)
| FollowupPrompt (predictions : pyval)
| ApiDiagnosisPrompt (predictions user_answers : pyval)
| PageDiagnosisPrompt (predictions user_answers : pyval)
| TreatmentPlanPrompt (final_disease : string)
| ChatPrompt (question : pyval)
| TreatmentPagePrompt (final_disease : pyval).

(** A maps request is a fixed URL template with holes, recorded likewise. *)
Inductive maps_call :=
| Geocode (address : string)
| NearbySearch (lat lng radius : pyval) (keyword : string)
| PlaceDetails (place_id : pyval).

Inductive event :=
| Generated (p : prompt) (r : reply string)
| Fetched (c : maps_call) (r : reply pyval).

(** The state a request runs in: the Flask session, the replies the model
    and the maps API will give to the calls to come, in order, and the
    calls made so far. *)
Record state := mkState {
  session : gmap string pyval;
  model : list (reply string);
  maps : list (reply pyval);
  trace : list event
}.

Definition M (A : Type) : Type := state -> outcome A * state.

#[export] Instance M_ret : MRet M := fun A a st => (Ret a, st).
#[export] Instance M_bind : MBind M := fun A B f m st =>
  match m st with
  | (Ret a, st') => f a st'
  | (Raise e, st') => (Raise e, st')
  end.

Definition lift {A} (o : outcome A) : M A := fun st => (o, st).

(** [try: m  except Exception as e: h e] *)
Definition try_except {A} (m : M A) (h : exn -> M A) : M A := fun st =>
  match m st with
  | (Ret a, st') => (Ret a, st')
  | (Raise e, st') => h e st'
  end.

Definition get_session : M (gmap string pyval) := fun st => (Ret (session st), st).

(** [session[k] = v] *)
Definition session_set (k : string) (v : pyval) : M unit := fun st =>
  (Ret tt, mkState (<[k := v]> (session st)) (model st) (maps st) (trace st)).

Definition answer {A} (r : reply A) : outcome A :=
  match r with
  | Reply a => Ret a
  | Fault msg => Raise (UpstreamError msg)
  end.

(** The reply to the call at the head of a script; a script that has run
    out answers with a failure. *)
Definition next {A} (script : list (reply A)) : reply A * list (reply A) :=
  match script with
  | r :: rest => (r, rest)
  | [] => (Fault "", [])
  end.

(** [genai.GenerativeModel("gemini-2.0-flash").generate_content(prompt).text] *)
Definition generate (p : prompt) : M string := fun st =>
  let '(r, rest) := next (model st) in
  (answer r, mkState (session st) rest (maps st) (trace st ++ [Generated p r])).

(** [requests.get(url).json()] *)
Definition fetch (c : maps_call) : M pyval := fun st =>
  let '(r, rest) := next (maps st) in
  (answer r, mkState (session st) (model st) rest (trace st ++ [Fetched c r])).

(** [for x in l: body x], threading an accumulator. *)
Fixpoint for_each {A B} (l : list A) (acc : B) (body : B -> A -> M B) : M B :=
  match l with
  | [] => mret acc
  | x :: r => acc' ← body acc x; for_each r acc' body
  end.

(** ** Requests and responses *)

Inductive http_method := GET | POST.

Record request := mkRequest {
  method : http_method;
  form : list (string * string);   (* [request.form] *)
  body : pyval                     (* [request.json] *)
}.

(** [request.form.get(k)] *)
Fixpoint form_get (k : string) (f : list (string * string)) : option string :=
  match f with
  | [] => None
  | (k', v) :: r => if String.eqb k k' then Some v else form_get k r
  end.

Inductive response :=
| Jsonify (payload : pyval) (status : nat)          (* [jsonify(payload), status] *)
| Redirect (endpoint : string)                      (* [redirect(url_for(endpoint))] *)
| Render (template : string) (context : list (string * pyval)).

(** ** Text prediction *)

Definition predict_disease_from_text (description : string) : M pyval :=
  response ← generate (PredictPrompt description);
  match Json.loads response with
  | Some v => mret v
  | None => mret (PList [])
  end.

Definition not_blank (q : string) : bool := negb (String.eqb (PyStr.strip q) "").

Definition generate_followup_questions (predictions : pyval) : M (list string) :=
  response ← generate (FollowupPrompt predictions);
  let questions := PyStr.split_nl (PyStr.strip response) in
  mret (List.filter not_blank questions).

(** ** API endpoints *)

(** The predictions gathered for a description: empty when the form has no
    description or an empty one, else the items of the model's answer. *)
Definition gather_predictions (req : request) : M (list pyval) :=
  match form_get "description" (form req) with
  | Some text_description =>
      if String.eqb text_description "" then mret []
      else
        text_predictions ← predict_disease_from_text text_description;
        items ← lift (Py.iter text_predictions);     (* [final_predictions.extend] *)
        mret ([] ++ items)
  | None => mret []
  end.

(** [POST /api/analyze] *)
Definition analyze (req : request) : M response :=
  final_predictions ← gather_predictions req;
  followup_questions ← generate_followup_questions (PList final_predictions);
  mret (Jsonify (PDict [("predictions", PList final_predictions);
                        ("followup_questions", PList (map PStr followup_questions))]) 200).

Definition FALLBACK : string :=
  "⚠️ Unable to fetch treatment details. Please consult a dermatologist.".

(** The treatment plan for a disease, with the fallback of both call sites. *)
Definition treatment_plan (final_disease : string) : M string :=
  try_except
    (text ← generate (TreatmentPlanPrompt final_disease); mret (PyStr.strip text))
    (fun _ => mret FALLBACK).

(** [POST /api/final-diagnosis] *)
Definition final_diagnosis_api (req : request) : M response :=
  let data := body req in
  predictions ← lift (Py.get data "predictions" (PList []));
  user_answers ← lift (Py.get data "user_answers" (PDict []));
  text ← generate (ApiDiagnosisPrompt predictions user_answers);
  let final_disease := PyStr.strip text in
  treatment_response ← treatment_plan final_disease;
  mret (Jsonify (PDict [("final_disease", PStr final_disease);
                        ("treatment", PStr treatment_response)]) 200).

(** *** Clinic search *)

Definition categories : list (string * string) :=
  [("NGO", "NGO hospital");
   ("Government", " skin government hospital");
   ("Private", "skin private hospital")].

Definition sorted_order : list string := ["NGO"; "Government"; "Private"].

(** [sorted_order.index(c) if c in sorted_order else 999] *)
Fixpoint index_or (c : pyval) (order : list string) (i : nat) : nat :=
  match order with
  | [] => 999%nat
  | s :: r => if Py.eq_str c s then i else index_or c r (S i)
  end.

(** The sort key, [lambda x: ...] *)
Definition sort_key (x : pyval) : outcome nat :=
  match Py.getitem x "category" with
  | Ret c => Ret (index_or c sorted_order 0)
  | Raise e => Raise e
  end.

(** [list.sort(key=...)]: the keys are computed first, one per item; the
    sort is stable. *)
Fixpoint keyed (l : list pyval) : outcome (list (nat * pyval)) :=
  match l with
  | [] => Ret []
  | x :: r =>
      match sort_key x with
      | Ret k =>
          match keyed r with
          | Ret kr => Ret ((k, x) :: kr)
          | Raise e => Raise e
          end
      | Raise e => Raise e
      end
  end.

Fixpoint insert_keyed (a : nat * pyval) (l : list (nat * pyval)) : list (nat * pyval) :=
  match l with
  | [] => [a]
  | b :: r => if (fst a <=? fst b)%nat then a :: b :: r else b :: insert_keyed a r
  end.

Definition stable_sort (l : list (nat * pyval)) : list (nat * pyval) :=
  fold_right insert_keyed [] l.

Definition sort_clinics (clinics : list pyval) : outcome (list pyval) :=
  match keyed clinics with
  | Ret kl => Ret (map snd (stable_sort kl))
  | Raise e => Raise e
  end.

(** One place of a nearby search, merged with its details. *)
Definition clinic_of (category : string) (place : pyval) : M pyval :=
  place_id ← lift (Py.get place "place_id" PNone);
  details_response ← fetch (PlaceDetails place_id);
  details_data ← lift (Py.get details_response "result" (PDict []));
  name ← lift (Py.get place "name" PNone);
  place_id' ← lift (Py.get place "place_id" PNone);
  address ← lift (Py.get details_data "formatted_address" PNone);
  phone ← lift (Py.get details_data "formatted_phone_number" PNone);
  website ← lift (Py.get details_data "website" PNone);
  rating ← lift (Py.get place "rating" PNone);
  geometry ← lift (Py.get place "geometry" (PDict []));
  location ← lift (Py.get geometry "location" (PDict []));
  opening_hours ← lift (Py.get details_data "opening_hours" (PDict []));
  hours ← lift (Py.get opening_hours "weekday_text" (PList []));
  mret (PDict [("category", PStr category); ("name", name); ("place_id", place_id');
               ("address", address); ("phone", phone); ("website", website);
               ("rating", rating); ("location", location); ("hours", hours)]).

(** The body of the loop over the categories. *)
Definition search_category (lat lng radius : pyval) (clinics : list pyval)
    (cat : string * string) : M (list pyval) :=
  let '(category, keyword) := cat in
  places_data ← fetch (NearbySearch lat lng radius keyword);
  results ← lift (Py.get places_data "results" (PList []));
  places ← lift (Py.iter results);
  for_each places clinics (fun clinics place =>
    clinic ← clinic_of category place;
    mret (clinics ++ [clinic])).

Definition geocode_error : response :=
  Jsonify (PDict [("error", PStr "Unable to geocode location")]) 400.

(** The rest of the handler once the coordinates are known. *)
Definition search_and_sort (lat lng radius : pyval) : M response :=
  clinics ← for_each categories [] (search_category lat lng radius);
  sorted ← lift (sort_clinics clinics);
  mret (Jsonify (PDict [("clinics", PList sorted)]) 200).

(** [POST /api/find_clinics] *)
Definition find_clinics (req : request) : M response :=
  let data := body req in
  user_location ← lift (Py.get data "location" PNone);
  range_km ← lift (Py.get data "range" (PInt 20));
  radius ← lift (Py.mul range_km 1000);
  match user_location with
  | PStr address =>
      geocode_data ← fetch (Geocode address);
      status ← lift (Py.get geocode_data "status" PNone);
      if negb (Py.eq_str status "OK") then mret geocode_error
      else
        results ← lift (Py.getitem geocode_data "results");
        first ← lift (Py.getitem0 results);
        geometry ← lift (Py.getitem first "geometry");
        location ← lift (Py.getitem geometry "location");
        lat ← lift (Py.getitem location "lat");
        lng ← lift (Py.getitem location "lng");
        search_and_sort lat lng radius
  | _ =>
      lat ← lift (Py.get user_location "lat" PNone);
      lng ← lift (Py.get user_location "lng" PNone);
      search_and_sort lat lng radius
  end.

(** [str(e)].  Inside the [try] block of [health_chat] only the model call
    can raise, so only the first case is ever used there; the other
    exceptions are shown by their class name. *)
Definition exn_str (e : exn) : string :=
  match e with
  | UpstreamError msg => msg
  | AttributeError => "AttributeError"
  | TypeError => "TypeError"
  | KeyError => "KeyError"
  | IndexError => "IndexError"
  end.

(** [POST /api/health_chat] *)
Definition health_chat (req : request) : M response :=
  let data := body req in
  question ← lift (Py.get data "question" PNone);
  if negb (Py.truthy question)
  then mret (Jsonify (PDict [("error", PStr "Question is required")]) 400)
  else
    try_except
      (text ← generate (ChatPrompt question);
       mret (Jsonify (PDict [("response", PStr (PyStr.strip text))]) 200))
      (fun e => mret (Jsonify (PDict [("error", PStr (exn_str e))]) 500)).

(** ** Page flow *)

(** [GET, POST /] *)
Definition index (req : request) : M response :=
  match method req with
  | POST =>
      final_predictions ← gather_predictions req;
      session_set "predictions" (PList final_predictions);;
      followup_questions ← generate_followup_questions (PList final_predictions);
      session_set "followup_questions" (PList (map PStr followup_questions));;
      session_set "detection_mode" (PStr "Text Only");;
      mret (Redirect "followup")
  | GET => mret (Render "index.html" [])
  end.

Definition NO_ANSWER : string := "No answer provided".

(** [request.form.get(q, "No answer provided")] *)
Definition answer_for (f : list (string * string)) (q : string) : string :=
  match form_get q f with
  | Some a => a
  | None => NO_ANSWER
  end.

(** [{q: request.form.get(q, "No answer provided") for q in questions}].
    The questions the application stores are [str]; a list or a dict among
    them is unhashable.  A dict keyed by [None], a [bool] or a number is
    outside [pyval], and the model stops there with [TypeError] too. *)
Fixpoint collect_answers (f : list (string * string)) (questions : list pyval)
    (acc : list (string * pyval)) : outcome (list (string * pyval)) :=
  match questions with
  | [] => Ret acc
  | PStr q :: r => collect_answers f r (Py.dict_set q (PStr (answer_for f q)) acc)
  | _ :: _ => Raise TypeError
  end.

(** [GET, POST /followup] *)
Definition followup (req : request) : M response :=
  s ← get_session;
  match s !! "followup_questions" with
  | None => mret (Redirect "index")
  | Some questions =>
      if negb (Py.truthy questions) then mret (Redirect "index")
      else
        match method req with
        | POST =>
            items ← lift (Py.iter questions);
            user_answers ← lift (collect_answers (form req) items []);
            session_set "user_answers" (PDict user_answers);;
            mret (Redirect "final_diagnosis_page")
        | GET => mret (Render "followup.html" [("questions", questions)])
        end
  end.

(** [session.get(k, default)] *)
Definition session_get (s : gmap string pyval) (k : string) (default : pyval) : pyval :=
  match s !! k with
  | Some v => v
  | None => default
  end.

(** [GET /final_diagnosis] *)
Definition final_diagnosis_page (req : request) : M response :=
  s ← get_session;
  match s !! "predictions", s !! "user_answers" with
  | Some predictions, Some user_answers =>
      text ← generate (PageDiagnosisPrompt predictions user_answers);
      let final_disease := PyStr.strip text in
      treatment_response ← treatment_plan final_disease;
      session_set "final_disease" (PStr final_disease);;
      s' ← get_session;
      mret (Render "final_diagnosis.html"
              [("final_disease", PStr final_disease);
               ("treatment", PStr treatment_response);
               ("detection_mode", session_get s' "detection_mode" (PStr "Text Only"))])
  | _, _ => mret (Redirect "index")
  end.

(** [GET /treatment] *)
Definition treatment (req : request) : M response :=
  s ← get_session;
  let final_disease := session_get s "final_disease" (PStr "Unknown") in
  treatment_plan ← generate (TreatmentPagePrompt final_disease);
  mret (Render "treatment.html"
          [("final_disease", final_disease); ("treatment", PStr treatment_plan)]).

(** ** Signaling relay *)

Module Relay.

(** A connection is known by its session id, [request.sid]. *)
Definition sid : Type := string.

(** One [emit]: the event, its payload and the connections it reaches. *)
Record emission := mkEmission {
  ev_name : string;
  ev_payload : pyval;
  ev_to : gset sid
}.

Section Transport.

(** The transport's room registry: the connections an [emit(..., to=room)]
    reaches, for each value given as [room]. *)
Variable rooms : pyval -> gset sid.

(** [emit(name, payload, to=room, skip_sid=skip)] *)
Definition emit_to (name : string) (payload room : pyval) (skip : sid) : emission :=
  mkEmission name payload (rooms room ∖ {[skip]}).

(** [emit(name, payload)] inside a handler: back to the sender only. *)
Definition emit_back (name : string) (payload : pyval) (sender : sid) : emission :=
  mkEmission name payload {[sender]}.

(** [@socketio.on("signal")] *)
Definition on_signal (sender : sid) (data : pyval) : outcome emission :=
  match Py.get data "room" PNone with
  | Ret room =>
      match Py.get data "signalData" PNone with
      | Ret signalData =>
          if Py.truthy room && Py.truthy signalData
          then Ret (emit_to "signal" (PDict [("signalData", signalData)]) room sender)
          else Ret (emit_back "error"
                      (PDict [("message", PStr "Missing room or signalData")]) sender)
      | Raise e => Raise e
      end
  | Raise e => Raise e
  end.

End Transport.

End Relay.

(** ** Vocabulary of the specification *)

(** An entry of shape [{disease: string, score: number}]. *)
Definition is_prediction (v : pyval) : bool :=
  match v with
  | PDict kvs =>
      match Py.dict_get "disease" kvs, Py.dict_get "score" kvs with
      | Some (PStr _), Some (PInt _ | PFloat _) => true
      | _, _ => false
      end
  | _ => false
  end.

(** A list of at most five such entries. *)
Definition is_prediction_list (v : pyval) : bool :=
  match v with
  | PList l => (length l <=? 5)%nat && forallb is_prediction l
  | _ => false
  end.

(** The follow-up questions as the specification words them: the
    newline-split lines of the response, the blank ones removed. *)
Definition followup_lines_spec (response : string) : list string :=
  List.filter not_blank (PyStr.split_nl response).

(** The state after a handler has stored [v] under [k] in the session. *)
Definition with_session (k : string) (v : pyval) (st : state) : state :=
  mkState (<[k := v]> (session st)) (model st) (maps st) (trace st).

(** ** The route table *)

Inductive endpoint :=
| Analyze | FinalDiagnosisApi | FindClinics | HealthChat
| Index | Followup | FinalDiagnosisPage | Treatment.

Definition handler (ep : endpoint) : request -> M response :=
  match ep with
  | Analyze => analyze
  | FinalDiagnosisApi => final_diagnosis_api
  | FindClinics => find_clinics
  | HealthChat => health_chat
  | Index => index
  | Followup => followup
  | FinalDiagnosisPage => final_diagnosis_page
  | Treatment => treatment
  end.

(** The treatment text a response carries, in its JSON payload or in its
    template context. *)
Definition treatment_shown (r : response) : option pyval :=
  match r with
  | Jsonify (PDict kvs) _ => Py.dict_get "treatment" kvs
  | Render _ context => Py.dict_get "treatment" context
  | _ => None
  end.

(** What the caller of a handler sees once the model call with prompt [p]
    has failed with message [msg]. *)
Definition after_model_failure (p : prompt) (msg : string) (res : outcome response) : Prop :=
  match p with
  | TreatmentPlanPrompt _ =>
      exists r, res = Ret r /\ treatment_shown r = Some (PStr FALLBACK)
  | ChatPrompt _ => res = Ret (Jsonify (PDict [("error", PStr msg)]) 500)
  | _ => res = Raise (UpstreamError msg)
  end.

(** The same as the specification words it: the treatment plan falls back,
    every other failure leaves the handler as an exception. *)
Definition after_model_failure_spec (p : prompt) (msg : string) (res : outcome response) : Prop :=
  match p with
  | TreatmentPlanPrompt _ =>
      exists r, res = Ret r /\ treatment_shown r = Some (PStr FALLBACK)
  | _ => res = Raise (UpstreamError msg)
  end.

(** A computation whose outside calls, whatever the state it starts in,
    only add events satisfying [P] at the end of the trace. *)
Definition emits {A} (P : event -> Prop) (m : M A) : Prop :=
  forall st r st', m st = (r, st') ->
  exists evs, trace st' = trace st ++ evs /\ Forall P evs.

Definition is_fetch (e : event) : Prop :=
  match e with Fetched _ _ => True | Generated _ _ => False end.

(** The calls of the search proper: nearby searches and place details. *)
Definition is_search (e : event) : Prop :=
  match e with
  | Fetched (NearbySearch _ _ _ _) _ | Fetched (PlaceDetails _) _ => True
  | _ => False
  end.

(** The category of a clinic record. *)
Definition category (x : pyval) : pyval :=
  match Py.getitem x "category" with
  | Ret c => c
  | Raise _ => PNone
  end.

Definition recognized (c : pyval) : Prop :=
  c = PStr "NGO" \/ c = PStr "Government" \/ c = PStr "Private".

(** The order the specification asks for: NGO, then Government, then
    Private, then whatever is not one of the three. *)
Inductive goes_before : pyval -> pyval -> Prop :=
| NGO_Government : goes_before (PStr "NGO") (PStr "Government")
| NGO_Private : goes_before (PStr "NGO") (PStr "Private")
| Government_Private : goes_before (PStr "Government") (PStr "Private")
| recognized_first c c' : recognized c -> ~ recognized c' -> goes_before c c'.

(** Every clinic of an earlier category stands before every clinic of a
    later one. *)
Definition in_priority_order (clinics : list pyval) : Prop :=
  forall i j a b,
    clinics !! i = Some a -> clinics !! j = Some b ->
    goes_before (category a) (category b) -> (i < j)%nat.

(** The sort key of a category. *)
Definition rank (c : pyval) : nat := index_or c sorted_order 0.

Definition key_le (a b : nat * pyval) : Prop := (fst a <= fst b)%nat.

(** ** Scripted replies of the maps API, for the examples *)

Definition place (id name : string) : pyval :=
  PDict [("place_id", PStr id); ("name", PStr name)].

Definition found (places : list pyval) : reply pyval :=
  Reply (PDict [("results", PList places)]).

Definition details (address : string) : reply pyval :=
  Reply (PDict [("result", PDict [("formatted_address", PStr address)])]).

Definition of_category (c : string) : pyval := PDict [("category", PStr c)].

(** ** Vocabulary of the further properties *)

(** What [predict_disease_from_text] makes of a model answer. *)
Definition decoded (text : string) : pyval :=
  match Json.loads text with
  | Some v => v
  | None => PList []
  end.

(** The values a [for] loop cannot iterate: [None], a [bool], a number. *)
Definition is_scalar (v : pyval) : bool :=
  match v with
  | PNone | PBool _ | PInt _ | PFloat _ => true
  | PStr _ | PList _ | PDict _ => false
  end.

(** The questions read off a follow-up answer of the model. *)
Definition questions_of (text : string) : list string :=
  List.filter not_blank (PyStr.split_nl (PyStr.strip text)).

(** The state after a model call with prompt [p] answered by [r], the
    script going on with [rest]. *)
Definition after_generate (p : prompt) (r : reply string) (rest : list (reply string))
    (st : state) : state :=
  mkState (session st) rest (maps st) (trace st ++ [Generated p r]).

(** The diagnosis a response carries, in its JSON payload or in its
    template context: the disease name and the treatment text. *)
Definition diagnosis_shown (r : response) : option pyval * option pyval :=
  match r with
  | Jsonify (PDict kvs) _ => (Py.dict_get "final_disease" kvs, Py.dict_get "treatment" kvs)
  | Render _ context => (Py.dict_get "final_disease" context, Py.dict_get "treatment" context)
  | _ => (None, None)
  end.

Definition diagnosis_of (o : outcome response) : outcome (option pyval * option pyval) :=
  match o with
  | Ret r => Ret (diagnosis_shown r)
  | Raise e => Raise e
  end.

(** A computation that stops at the first failed maps call: whenever one
    of the calls it adds to the trace has failed, its outcome is that
    failure. *)
Definition strict {A} (m : M A) : Prop :=
  forall st r st', m st = (r, st') ->
  exists evs, trace st' = trace st ++ evs
    /\ forall c msg, In (Fetched c (Fault msg)) evs -> r = Raise (UpstreamError msg).

(** The search keywords. *)
Definition keywords : list string := map snd categories.

(** A call of the search proper made with the given coordinates and
    radius and one of the three keywords, or a details call. *)
Definition searches_with (lat lng radius : pyval) (e : event) : Prop :=
  match e with
  | Fetched (NearbySearch la ln ra kw) _ =>
      la = lat /\ ln = lng /\ ra = radius /\ In kw keywords
  | Fetched (PlaceDetails _) _ => True
  | _ => False
  end.

(** [geocode_data["results"][0]["geometry"]["location"]] and its two
    coordinates. *)
Definition geocoded (geocode_data : pyval) : outcome (pyval * pyval) :=
  match Py.getitem geocode_data "results" with
  | Ret results =>
      match Py.getitem0 results with
      | Ret first =>
          match Py.getitem first "geometry" with
          | Ret geometry =>
              match Py.getitem geometry "location" with
              | Ret location =>
                  match Py.getitem location "lat" with
                  | Ret lat =>
                      match Py.getitem location "lng" with
                      | Ret lng => Ret (lat, lng)
                      | Raise e => Raise e
                      end
                  | Raise e => Raise e
                  end
              | Raise e => Raise e
              end
          | Raise e => Raise e
          end
      | Raise e => Raise e
      end
  | Raise e => Raise e
  end.

(** The place ids asked for by the details calls of a trace, in order, and
    the keywords of its nearby searches. *)
Definition detail_ids (tr : list event) : list pyval :=
  flat_map (fun e => match e with Fetched (PlaceDetails id) _ => [id] | _ => [] end) tr.

Definition nearby_keywords (tr : list event) : list string :=
  flat_map (fun e => match e with Fetched (NearbySearch _ _ _ kw) _ => [kw] | _ => [] end) tr.

(** [clinic["place_id"]] *)
Definition clinic_place_id (clinic : pyval) : pyval :=
  match Py.getitem clinic "place_id" with
  | Ret v => v
  | Raise _ => PNone
  end.

(** A clinic record as [find_clinics] builds it, for a category and a
    place id. *)
Definition clinic_record (c : string) (id : pyval) (clinic : pyval) : Prop :=
  exists name address phone website rating location hours,
    clinic = PDict [("category", PStr c); ("name", name); ("place_id", id);
                    ("address", address); ("phone", phone); ("website", website);
                    ("rating", rating); ("location", location); ("hours", hours)].

Definition clinic_fields : list string :=
  ["category"; "name"; "place_id"; "address"; "phone"; "website"; "rating";
   "location"; "hours"].

(** A dict with exactly the nine fields, whose category is one of the
    three. *)
Definition is_clinic (clinic : pyval) : Prop :=
  exists kvs c,
    clinic = PDict kvs /\ Py.keys kvs = clinic_fields
    /\ Py.dict_get "category" kvs = Some (PStr c) /\ In c sorted_order.

(** The records built for the places of one category, each with the
    details call made for it. *)
Definition built (c : string) (clinics : list pyval) (evs : list event) : Prop :=
  Forall2 (fun clinic e => exists id r, e = Fetched (PlaceDetails id) r
                                        /\ clinic_record c id clinic) clinics evs.

(** Whether a text holds a newline. *)
Fixpoint has_newline (s : string) : bool :=
  match s with
  | EmptyString => false
  | String c r => Ascii.eqb c PyStr.newline || has_newline r
  end.

(** The clinics of one priority, in the order they have in a list. *)
Definition of_rank (k : nat) (clinics : list pyval) : list pyval :=
  List.filter (fun x => (rank (category x) =? k)%nat) clinics.

(** ** Requests, sessions and scripts for the examples *)

Definition describing : request := mkRequest POST [("description", "itchy red patches")] PNone.

Definition answering : request := mkRequest POST [("Does it itch?", "yes")] PNone.

Definition visiting : request := mkRequest GET [] PNone.

Definition answered_session : gmap string pyval :=
  {["predictions" := PList [PStr "Eczema"]; "user_answers" := PDict [("Does it itch?", PStr "yes")]]}.

Definition at_coordinates : request :=
  mkRequest POST [] (PDict [("location", PDict [("lat", PInt 28); ("lng", PInt 77)])]).

Definition at_address : request :=
  mkRequest POST [] (PDict [("location", PStr "Connaught Place"); ("range", PInt 5)]).

Definition geocoding (lat lng : Z) : pyval :=
  PDict [("status", PStr "OK");
         ("results", PList [PDict [("geometry",
            PDict [("location", PDict [("lat", PInt lat); ("lng", PInt lng)])])]])].

(** * Properties *)

(** ** Running the monad *)

Lemma bind_run {A B} (m : M A) (f : A -> M B) (st : state) :
  (m ≫= f) st =
  match m st with
  | (Ret a, st') => f a st'
  | (Raise e, st') => (Raise e, st')
  end.
Proof. reflexivity. Qed.

Lemma bind_ret_inv {A B} (m : M A) (f : A -> M B) st b st' :
  (m ≫= f) st = (Ret b, st') ->
  exists a st1, m st = (Ret a, st1) /\ f a st1 = (Ret b, st').
Proof.
  rewrite bind_run. destruct (m st) as [[a|e] st1]; [eauto | discriminate].
Qed.

Lemma lift_run {A} (o : outcome A) st : lift o st = (o, st).
Proof. reflexivity. Qed.

Lemma generate_reply p t rest st :
  model st = Reply t :: rest ->
  generate p st =
  (Ret t, mkState (session st) rest (maps st) (trace st ++ [Generated p (Reply t)])).
Proof. intros H. unfold generate. rewrite H. reflexivity. Qed.

Lemma generate_fault p msg rest st :
  model st = Fault msg :: rest ->
  generate p st =
  (Raise (UpstreamError msg),
   mkState (session st) rest (maps st) (trace st ++ [Generated p (Fault msg)])).
Proof. intros H. unfold generate. rewrite H. reflexivity. Qed.

(** ** Strings *)

Module PyStrFacts.
Import PyStr.

Lemma lstrip_all_space_len n : forall s,
  (length s <= n)%nat -> all_space s = true -> lstrip s = [].
Proof.
  induction n as [|n IH]; intros s Hlen Hs.
  - destruct s; [reflexivity | simpl in Hlen; lia].
  - destruct s as [|c1 r1]; [reflexivity|].
    simpl in Hlen. simpl in Hs |- *.
    destruct (is_space1 c1); [apply IH; [lia | exact Hs]|].
    destruct r1 as [|c2 r2]; [discriminate|].
    simpl in Hlen.
    destruct (is_space2 c1 c2); [apply IH; [lia | exact Hs]|].
    destruct r2 as [|c3 r3]; [discriminate|].
    simpl in Hlen.
    destruct (is_space3 c1 c2 c3); [|discriminate].
    apply IH; [lia | exact Hs].
Qed.

Lemma strip_whitespace_only s : whitespace_only s = true -> strip s = "".
Proof.
  unfold whitespace_only, strip. intros H.
  rewrite (lstrip_all_space_len _ _ (Nat.le_refl _) H). reflexivity.
Qed.

Lemma strip_empty : strip "" = "".
Proof. reflexivity. Qed.

Lemma not_blank_sound q :
  not_blank q = true -> q <> "" /\ whitespace_only q = false.
Proof.
  unfold not_blank. intros H. apply negb_true_iff, String.eqb_neq in H. split.
  - intros ->. apply H. reflexivity.
  - destruct (whitespace_only q) eqn:E; [|reflexivity].
    exfalso. apply H. apply strip_whitespace_only. exact E.
Qed.

End PyStrFacts.

(** ** The decoder always answers *)

Module JsonFacts.
Import Json.

Lemma skip_ws_length s : (String.length (skip_ws s) <= String.length s)%nat.
Proof.
  induction s as [|c r IH]; simpl; [lia|].
  destruct (is_ws c); simpl; lia.
Qed.

Lemma digits_length s ds r : digits s = (ds, r) -> (String.length r + length ds = String.length s)%nat.
Proof.
  revert ds r. induction s as [|c s IH]; simpl; intros ds r H.
  - injection H as <- <-. reflexivity.
  - destruct (is_digit c).
    + destruct (digits s) as [ds' r'] eqn:E. injection H as <- <-.
      specialize (IH _ _ eq_refl). simpl. lia.
    + injection H as <- <-. simpl. lia.
Qed.

Lemma minus_sign_length s b r : minus_sign s = (b, r) -> (String.length r <= String.length s)%nat.
Proof.
  destruct s as [|c s]; simpl; [intros [= <- <-]; simpl; lia|].
  destruct (Ascii.eqb c "-"); intros [= <- <-]; simpl; lia.
Qed.

Lemma int_part_length s ds r : int_part s = Some (ds, r) -> (String.length r < String.length s)%nat.
Proof.
  destruct s as [|c s]; simpl; [discriminate|].
  destruct (is_digit c) eqn:Ed; [|discriminate].
  destruct (Ascii.eqb c "0"); [intros [= <- <-]; lia|].
  destruct (digits s) as [ds' r'] eqn:E. intros [= <- <-].
  apply digits_length in E. lia.
Qed.

Lemma frac_part_length s ds r : frac_part s = (ds, r) -> (String.length r <= String.length s)%nat.
Proof.
  destruct s as [|c s]; simpl; [intros [= <- <-]; simpl; lia|].
  destruct (Ascii.eqb c "."); [|intros [= <- <-]; simpl; lia].
  destruct (digits s) as [[|d ds'] r'] eqn:E; intros [= <- <-]; simpl; [lia|].
  apply digits_length in E. lia.
Qed.

Lemma exp_part_length s e r : exp_part s = (e, r) -> (String.length r <= String.length s)%nat.
Proof.
  destruct s as [|c s]; simpl; [intros [= <- <-]; simpl; lia|].
  destruct (Ascii.eqb c "e" || Ascii.eqb c "E"); [|intros [= <- <-]; simpl; lia].
  destruct (minus_sign s) as [eneg r1] eqn:Em. apply minus_sign_length in Em.
  set (r2 := match s with String g t => if Ascii.eqb g "+" then t else r1 | EmptyString => r1 end).
  assert (H2 : (String.length r2 <= String.length s)%nat).
  { unfold r2. destruct s as [|g t]; [exact Em|].
    simpl in Em. destruct (Ascii.eqb g "+"); simpl; lia. }
  destruct (digits r2) as [[|d ds'] r3] eqn:E; intros [= <- <-]; simpl; [lia|].
  apply digits_length in E. lia.
Qed.

Lemma number_length s v r : number s = Some (v, r) -> (String.length r < String.length s)%nat.
Proof.
  unfold number. destruct (minus_sign s) as [neg s1] eqn:E1.
  destruct (int_part s1) as [[ip s2]|] eqn:E2; [|discriminate].
  destruct (frac_part s2) as [fp s3] eqn:E3.
  destruct (exp_part s3) as [ex s4] eqn:E4.
  apply minus_sign_length in E1. apply int_part_length in E2.
  apply frac_part_length in E3. apply exp_part_length in E4.
  destruct fp, ex; intros [= <- <-]; lia.
Qed.

Lemma starts_with_length p s r : starts_with p s = Some r -> (String.length r + String.length p = String.length s)%nat.
Proof.
  revert s. induction p as [|a p IH]; intros s; simpl.
  - intros [= <-]. lia.
  - destruct s as [|b s]; [discriminate|].
    destruct (Ascii.eqb a b); [|discriminate]. intros H. apply IH in H. simpl. lia.
Qed.

Lemma literal_length p v s w r :
  (0 < String.length p)%nat -> literal p v s = Parsed w r -> (String.length r < String.length s)%nat.
Proof.
  unfold literal. intros Hp. destruct (starts_with p s) eqn:E; [|discriminate].
  intros [= <- <-]. apply starts_with_length in E. lia.
Qed.

Lemma literal_fuel p v s : literal p v s <> OutOfFuel.
Proof. unfold literal. destruct (starts_with p s); discriminate. Qed.

Lemma scan_string_length_n n : forall s t r,
  (String.length s <= n)%nat -> scan_string s = Some (t, r) -> (String.length r < String.length s)%nat.
Proof.
  induction n as [|n IH]; intros s t r Hn H.
  - destruct s; [discriminate | simpl in Hn; lia].
  - destruct s as [|c s]; [discriminate|].
    simpl in Hn. simpl in H.
    repeat match type of H with
    | context [match ?x with _ => _ end] =>
        lazymatch x with
        | context [match _ with _ => _ end] => fail
        | _ => destruct x eqn:?
        end
    end.
    all: try discriminate H.
    all: injection H as <- <-.
    all: simpl in Hn |- *.
    all: try lia.
    all: match goal with
         | E : scan_string ?s' = Some (_, ?r') |- _ =>
             apply IH in E; [simpl in E; lia | simpl; lia]
         end.
Qed.

Lemma scan_string_length s t r : scan_string s = Some (t, r) -> (String.length r < String.length s)%nat.
Proof. apply (scan_string_length_n (String.length s)). lia. Qed.

Lemma elements_progress n pv : progresses n pv -> forall fuel s acc,
  (String.length s <= n)%nat -> (String.length s < fuel)%nat ->
  elements pv fuel s acc <> OutOfFuel
  /\ forall v r, elements pv fuel s acc = Parsed v r -> (String.length r < String.length s)%nat.
Proof.
  intros Hpv. induction fuel as [|fuel IH]; intros s acc Hn Hf; [lia|].
  simpl. destruct (Hpv s Hn) as [Hne Hlt].
  destruct (pv s) as [v r| |] eqn:E; [|split; discriminate|congruence].
  specialize (Hlt _ _ eq_refl). pose proof (skip_ws_length r) as Hr.
  destruct (skip_ws r) as [|c r'] eqn:Er; [split; discriminate|]. simpl in Hr.
  destruct (Ascii.eqb c ",").
  - pose proof (skip_ws_length r') as Hr'.
    destruct (IH (skip_ws r') (v :: acc)) as [H1 H2]; [lia | lia |].
    split; [exact H1|]. intros w t Ht. apply H2 in Ht. lia.
  - destruct (Ascii.eqb c "]"); [|split; discriminate].
    split; [discriminate|]. intros w t [= <- <-]. lia.
Qed.

Lemma members_progress n pv : progresses n pv -> forall fuel s acc,
  (String.length s <= n)%nat -> (String.length s < fuel)%nat ->
  members pv fuel s acc <> OutOfFuel
  /\ forall v r, members pv fuel s acc = Parsed v r -> (String.length r < String.length s)%nat.
Proof.
  intros Hpv. induction fuel as [|fuel IH]; intros s acc Hn Hf; [lia|].
  simpl. destruct s as [|q r0]; [split; discriminate|]. simpl in Hn, Hf.
  destruct (Ascii.eqb q PyStr.dquote); [|split; discriminate].
  destruct (scan_string r0) as [[k r1]|] eqn:Ek; [|split; discriminate].
  apply scan_string_length in Ek. pose proof (skip_ws_length r1) as H1.
  destruct (skip_ws r1) as [|c r2] eqn:E1; [split; discriminate|]. simpl in H1.
  destruct (Ascii.eqb c ":"); [|split; discriminate].
  pose proof (skip_ws_length r2) as H2.
  destruct (Hpv (skip_ws r2)) as [Hne Hlt]; [lia|].
  destruct (pv (skip_ws r2)) as [v r3| |] eqn:E; [|split; discriminate|congruence].
  specialize (Hlt _ _ eq_refl). pose proof (skip_ws_length r3) as H3.
  destruct (skip_ws r3) as [|d r4] eqn:E3; [split; discriminate|]. simpl in H3.
  destruct (Ascii.eqb d ",").
  - pose proof (skip_ws_length r4) as H4.
    destruct (IH (skip_ws r4) (Py.dict_set k v acc)) as [G1 G2]; [lia | lia |].
    split; [exact G1|]. intros w t Ht. apply G2 in Ht. simpl. lia.
  - destruct (Ascii.eqb d "}"); [|split; discriminate].
    split; [discriminate|]. intros w t [= <- <-]. simpl. lia.
Qed.

Lemma value_progress fuel : forall n, (n < fuel)%nat -> progresses n (value fuel).
Proof.
  induction fuel as [|fuel IH]; intros n Hn; [lia|].
  intros s Hs. simpl. destruct s as [|c r]; [split; discriminate|]. simpl in Hs.
  assert (Hr : progresses (String.length r) (value fuel)) by (apply IH; lia).
  destruct (Ascii.eqb c PyStr.dquote).
  { destruct (scan_string r) as [[t rest]|] eqn:E; [|split; discriminate].
    apply scan_string_length in E. split; [discriminate|].
    intros v r' [= <- <-]. simpl. lia. }
  destruct (Ascii.eqb c "{").
  { pose proof (skip_ws_length r) as Hw.
    destruct (skip_ws r) as [|d r'] eqn:E; [split; discriminate|].
    destruct (Ascii.eqb d "}").
    - split; [discriminate|]. intros v t [= <- <-]. simpl in Hw |- *. lia.
    - destruct (members_progress _ _ Hr (S (String.length r)) (String d r') []) as [G1 G2];
        [exact Hw | lia |].
      split; [exact G1|]. intros v t Ht. apply G2 in Ht. simpl. lia. }
  destruct (Ascii.eqb c "[").
  { pose proof (skip_ws_length r) as Hw.
    destruct (skip_ws r) as [|d r'] eqn:E; [split; discriminate|].
    destruct (Ascii.eqb d "]").
    - split; [discriminate|]. intros v t [= <- <-]. simpl in Hw |- *. lia.
    - destruct (elements_progress _ _ Hr (S (String.length r)) (String d r') []) as [G1 G2];
        [exact Hw | lia |].
      split; [exact G1|]. intros v t Ht. apply G2 in Ht. simpl. lia. }
  assert (Hlit : forall p v, (0 < String.length p)%nat ->
            literal p v (String c r) <> OutOfFuel
            /\ forall w t, literal p v (String c r) = Parsed w t -> (String.length t < S (String.length r))%nat).
  { intros p v Hp. split; [apply literal_fuel|].
    intros w t Ht. apply literal_length in Ht; [exact Ht | exact Hp]. }
  destruct (Ascii.eqb c "n"); [apply Hlit; simpl; lia|].
  destruct (Ascii.eqb c "t"); [apply Hlit; simpl; lia|].
  destruct (Ascii.eqb c "f"); [apply Hlit; simpl; lia|].
  destruct (number (String c r)) as [[v rest]|] eqn:E.
  { apply number_length in E. split; [discriminate|]. intros w t [= <- <-]. exact E. }
  destruct (Ascii.eqb c "N"); [apply Hlit; simpl; lia|].
  destruct (Ascii.eqb c "I"); [apply Hlit; simpl; lia|].
  destruct (Ascii.eqb c "-"); [apply Hlit; simpl; lia|].
  split; discriminate.
Qed.

(** The fuel [loads] gives is enough: a [None] is always a refusal of the
    text, never an exhausted search. *)
Lemma loads_fuel_suffices s : value (S (String.length s)) (skip_ws s) <> OutOfFuel.
Proof.
  apply (value_progress (S (String.length s)) (String.length s)); [lia | apply skip_ws_length].
Qed.

End JsonFacts.

(** ** Text prediction *)

(** C1, as stated, fails: the decoded response is returned without any
    check, so an answer that is valid JSON but not a list of predictions
    comes back as it is.  Here the model answers with one prediction that
    is not wrapped in a list. *)
Lemma predict_returns_any_json :
  let text := ("{" ++ PyStr.quoted "disease" ++ ": " ++ PyStr.quoted "Eczema" ++ ", "
               ++ PyStr.quoted "score" ++ ": 0.9}")%string in
  let st := mkState ∅ [Reply text] [] [] in
  exists v, fst (predict_disease_from_text "itchy red patches" st) = Ret v
            /\ is_prediction v = true
            /\ is_prediction_list v = false.
Proof. eexists. split; [vm_compute; reflexivity | split; reflexivity]. Qed.

(** C1, amended: when the model answers with a text, the function returns
    the decoded JSON value of that text unchanged, whatever its shape, and
    the empty list when the text is not valid JSON; in both cases nothing
    is raised and exactly one model call is made.  So the result is a list
    of at most five [{disease, score}] entries exactly when the model
    answered with one. *)
Theorem predict_disease_from_text_decodes (description text : string)
    (rest : list (reply string)) (st : state) :
  model st = Reply text :: rest ->
  exists v,
    predict_disease_from_text description st =
      (Ret v, mkState (session st) rest (maps st)
                (trace st ++ [Generated (PredictPrompt description) (Reply text)]))
    /\ (Json.loads text = None -> v = PList [])
    /\ (forall d, Json.loads text = Some d -> v = d)
    /\ (is_prediction_list v = true <->
        Json.loads text = None \/ exists d, Json.loads text = Some d /\ is_prediction_list d = true).
Proof.
  intros Hm. unfold predict_disease_from_text.
  rewrite bind_run, (generate_reply _ _ _ _ Hm).
  destruct (Json.loads text) as [d|] eqn:E.
  - exists d. split; [reflexivity|]. split; [discriminate|]. split.
    + intros d' [= ->]. reflexivity.
    + split; [intros H; right; eauto | intros [H | (d' & [= <-] & H)]; [discriminate | exact H]].
  - exists (PList []). split; [reflexivity|]. split; [reflexivity|]. split; [discriminate|].
    split; [intros _; left; reflexivity | reflexivity].
Qed.

Lemma predict_disease_from_text_decodes_witness :
  let text := ("[{" ++ PyStr.quoted "disease" ++ ": " ++ PyStr.quoted "Acne" ++ ", "
               ++ PyStr.quoted "score" ++ ": 0.8}]")%string in
  let st := mkState ∅ [Reply text] [] [] in
  model st = Reply text :: [] /\
  exists v,
    predict_disease_from_text "small red bumps" st =
      (Ret v, mkState (session st) [] (maps st)
                (trace st ++ [Generated (PredictPrompt "small red bumps") (Reply text)]))
    /\ (Json.loads text = None -> v = PList [])
    /\ (forall d, Json.loads text = Some d -> v = d)
    /\ (is_prediction_list v = true <->
        Json.loads text = None \/ exists d, Json.loads text = Some d /\ is_prediction_list d = true).
Proof.
  intros text st. split; [reflexivity|].
  apply (predict_disease_from_text_decodes "small red bumps" text [] st). reflexivity.
Defined.

(** A response that is not JSON gives the empty list, silently. *)
Example predict_malformed :
  fst (predict_disease_from_text "rash" (mkState ∅ [Reply "Sorry, I cannot help."] [] []))
  = Ret (PList []).
Proof. vm_compute. reflexivity. Qed.

(** ** Follow-up questions *)

(** C6, as stated, fails: the response is trimmed as a whole before it is
    split, so the first and the last line lose their outer white space and
    are not the lines of the response. *)
Lemma followup_questions_trimmed_first :
  let text := (" Q1" ++ PyStr.nl ++ "Q2")%string in
  let st := mkState ∅ [Reply text] [] [] in
  fst (generate_followup_questions (PList []) st) = Ret ["Q1"; "Q2"]
  /\ followup_lines_spec text = [" Q1"; "Q2"]
  /\ fst (generate_followup_questions (PList []) st) <> Ret (followup_lines_spec text).
Proof. vm_compute. split; [reflexivity | split; [reflexivity | discriminate]]. Qed.

(** C6, amended: the function returns the newline-split lines of the
    trimmed response with every blank-only line removed, in order; no
    returned entry is empty or made of white space only; and for the
    response [Q1], two newlines, [Q2], newline, the result is [Q1; Q2]. *)
Theorem generate_followup_questions_lines (predictions : pyval) (text : string)
    (rest : list (reply string)) (st : state) :
  model st = Reply text :: rest ->
  exists qs,
    generate_followup_questions predictions st =
      (Ret qs, mkState (session st) rest (maps st)
                 (trace st ++ [Generated (FollowupPrompt predictions) (Reply text)]))
    /\ qs = followup_lines_spec (PyStr.strip text)
    /\ Forall (fun q => q <> "" /\ PyStr.whitespace_only q = false) qs
    /\ (text = ("Q1" ++ PyStr.nl ++ PyStr.nl ++ "Q2" ++ PyStr.nl)%string -> qs = ["Q1"; "Q2"]).
Proof.
  intros Hm. eexists. split.
  - unfold generate_followup_questions.
    rewrite bind_run, (generate_reply _ _ _ _ Hm). reflexivity.
  - split; [reflexivity|]. split.
    + apply List.Forall_forall. intros q Hq.
      apply List.filter_In in Hq. apply PyStrFacts.not_blank_sound, Hq.
    + intros ->. vm_compute. reflexivity.
Qed.

Lemma generate_followup_questions_lines_witness :
  let text := ("Q1" ++ PyStr.nl ++ PyStr.nl ++ "Q2" ++ PyStr.nl)%string in
  let st := mkState ∅ [Reply text] [] [] in
  exists qs,
    generate_followup_questions (PList []) st =
      (Ret qs, mkState (session st) [] (maps st)
                 (trace st ++ [Generated (FollowupPrompt (PList [])) (Reply text)]))
    /\ qs = followup_lines_spec (PyStr.strip text)
    /\ Forall (fun q => q <> "" /\ PyStr.whitespace_only q = false) qs
    /\ (text = ("Q1" ++ PyStr.nl ++ PyStr.nl ++ "Q2" ++ PyStr.nl)%string -> qs = ["Q1"; "Q2"]).
Proof.
  intros text st.
  apply (generate_followup_questions_lines (PList []) text [] st). reflexivity.
Defined.

(** ** Follow-up page *)

(** C5: whatever the request (method, form, body), when the session has no
    [followup_questions] or a value that counts as empty, the handler
    answers with a redirect to the start page and leaves the whole state
    (session, scripts, trace) as it was; the answer does not depend on the
    form. *)
Theorem followup_guard (req : request) (st : state) :
  (session st !! "followup_questions" = None
   \/ exists v, session st !! "followup_questions" = Some v /\ Py.truthy v = false) ->
  followup req st = (Ret (Redirect "index"), st).
Proof.
  intros H. unfold followup. rewrite bind_run. cbn.
  destruct H as [-> | (v & -> & Hv)]; [reflexivity|].
  rewrite Hv. reflexivity.
Qed.

Lemma followup_guard_witness :
  let fresh := mkState ∅ [] [] [] in
  let emptied := mkState {["followup_questions" := PList []]} [] [] [] in
  followup (mkRequest GET [] PNone) fresh = (Ret (Redirect "index"), fresh)
  /\ followup (mkRequest POST [("Q1", "yes")] PNone) emptied = (Ret (Redirect "index"), emptied).
Proof.
  split.
  - apply followup_guard. left. reflexivity.
  - apply followup_guard. right. exists (PList []). split; reflexivity.
Defined.

(** *** dict facts *)

Lemma dict_get_set_eq k v kvs : Py.dict_get k (Py.dict_set k v kvs) = Some v.
Proof.
  induction kvs as [|[k' v'] r IH]; simpl.
  - rewrite String.eqb_refl. reflexivity.
  - destruct (String.eqb k k') eqn:E; simpl; rewrite E; [reflexivity | exact IH].
Qed.

Lemma dict_get_set_ne k k' v kvs :
  k <> k' -> Py.dict_get k' (Py.dict_set k v kvs) = Py.dict_get k' kvs.
Proof.
  intros Hne. induction kvs as [|[k0 v0] r IH]; simpl.
  - destruct (String.eqb k' k) eqn:E; [|reflexivity].
    apply String.eqb_eq in E. congruence.
  - destruct (String.eqb k k0) eqn:E; simpl.
    + apply String.eqb_eq in E. subst k0.
      destruct (String.eqb k' k) eqn:E'; [|reflexivity].
      apply String.eqb_eq in E'. congruence.
    + rewrite IH. reflexivity.
Qed.

Lemma keys_dict_set k v kvs q :
  In q (Py.keys (Py.dict_set k v kvs)) <-> q = k \/ In q (Py.keys kvs).
Proof.
  unfold Py.keys. induction kvs as [|[k' v'] r IH]; simpl.
  - split; [intros [->|[]]; auto | intros [->|[]]; auto].
  - destruct (String.eqb k k') eqn:E; simpl.
    + apply String.eqb_eq in E. subst k'. split; [intros [->|H]; auto | intros [->|[->|H]]; auto].
    + rewrite IH. split; [intros [->|[->|H]]; auto | intros [->|[->|H]]; auto].
Qed.

Lemma NoDup_keys_dict_set k v kvs :
  List.NoDup (Py.keys kvs) -> List.NoDup (Py.keys (Py.dict_set k v kvs)).
Proof.
  induction kvs as [|[k' v'] r IH]; simpl; intros H.
  - constructor; [intros [] | constructor].
  - destruct (String.eqb k k') eqn:E; simpl; [exact H|].
    inversion H as [|? ? Hnotin Hr]; subst. constructor; [|apply IH, Hr].
    change (~ In k' (Py.keys (Py.dict_set k v r))).
    rewrite keys_dict_set. intros [-> | Hin]; [|apply Hnotin, Hin].
    rewrite String.eqb_refl in E. discriminate.
Qed.

(** The dict comprehension over a list of [str] questions. *)
Lemma collect_answers_spec f qs : forall acc,
  List.NoDup (Py.keys acc) ->
  exists ua,
    collect_answers f (map PStr qs) acc = Ret ua
    /\ List.NoDup (Py.keys ua)
    /\ (forall q, In q (Py.keys ua) <-> In q qs \/ In q (Py.keys acc))
    /\ (forall q, In q qs -> Py.dict_get q ua = Some (PStr (answer_for f q)))
    /\ (forall q, ~ In q qs -> Py.dict_get q ua = Py.dict_get q acc).
Proof.
  induction qs as [|q0 r IH]; intros acc Hnd; simpl.
  - exists acc. repeat split; auto; tauto.
  - destruct (IH (Py.dict_set q0 (PStr (answer_for f q0)) acc)
                (NoDup_keys_dict_set _ _ _ Hnd)) as (ua & Hrun & Hnd' & Hkeys & Hin & Hout).
    exists ua. split; [exact Hrun|]. split; [exact Hnd'|]. split; [|split].
    + intros q. rewrite Hkeys, keys_dict_set. simpl. intuition (subst; auto).
    + intros q [<- | Hq].
      * destruct (List.in_dec string_dec q0 r) as [Hr | Hr]; [apply Hin, Hr|].
        rewrite (Hout _ Hr). apply dict_get_set_eq.
      * apply Hin, Hq.
    + intros q Hq. rewrite Hout by tauto. apply dict_get_set_ne. tauto.
Qed.

(** C7: on a POST to the follow-up page with questions in the session, the
    handler stores under [user_answers] a dict whose keys are exactly the
    session's questions, each once, and redirects to the diagnosis page;
    each question maps to the form value sent under that very text, or to
    ["No answer provided"] when the form has no such field. *)
Theorem followup_stores_answers (req : request) (st : state) (qs : list string) :
  method req = POST ->
  session st !! "followup_questions" = Some (PList (map PStr qs)) ->
  qs <> [] ->
  exists ua,
    followup req st =
      (Ret (Redirect "final_diagnosis_page"), with_session "user_answers" (PDict ua) st)
    /\ List.NoDup (Py.keys ua)
    /\ (forall q, In q (Py.keys ua) <-> In q qs)
    /\ (forall q, In q qs ->
          Py.dict_get q ua =
          Some (PStr match form_get q (form req) with
                     | Some a => a
                     | None => "No answer provided"
                     end)).
Proof.
  intros Hpost Hs Hne.
  destruct (collect_answers_spec (form req) qs [] (List.NoDup_nil _))
    as (ua & Hrun & Hnd & Hkeys & Hin & _).
  exists ua. split; [|split; [exact Hnd | split]].
  - assert (Ht : Py.truthy (PList (map PStr qs)) = true)
      by (destruct qs; [congruence | reflexivity]).
    unfold followup. rewrite bind_run. cbn [get_session]. rewrite Hs, Ht, Hpost.
    cbn [negb]. rewrite bind_run, lift_run. cbn [Py.iter].
    rewrite bind_run, lift_run, Hrun. reflexivity.
  - intros q. rewrite Hkeys. simpl. tauto.
  - intros q Hq. rewrite (Hin q Hq). reflexivity.
Qed.

Lemma followup_stores_answers_witness :
  let qs := ["Does it itch?"; "Since when?"] in
  let req := mkRequest POST [("Does it itch?", "yes")] PNone in
  let st := mkState {["followup_questions" := PList (map PStr qs)]} [] [] [] in
  exists ua,
    followup req st =
      (Ret (Redirect "final_diagnosis_page"), with_session "user_answers" (PDict ua) st)
    /\ Py.dict_get "Does it itch?" ua = Some (PStr "yes")
    /\ Py.dict_get "Since when?" ua = Some (PStr "No answer provided").
Proof.
  intros qs req st.
  destruct (followup_stores_answers req st qs) as (ua & Hrun & _ & _ & Hget);
    [reflexivity | reflexivity | discriminate |].
  exists ua. split; [exact Hrun|]. split.
  - apply (Hget "Does it itch?"). simpl. auto.
  - apply (Hget "Since when?"). simpl. auto.
Defined.

(** ** What a computation adds to the trace *)

Section Emits.

Context (P : event -> Prop).

Lemma emits_mret {A} (a : A) : emits P (mret a).
Proof. intros st r st' [= <- <-]. exists []. rewrite app_nil_r. auto. Qed.

Lemma emits_lift {A} (o : outcome A) : emits P (lift o).
Proof. intros st r st' [= <- <-]. exists []. rewrite app_nil_r. auto. Qed.

Lemma emits_get_session : emits P get_session.
Proof. intros st r st' [= <- <-]. exists []. rewrite app_nil_r. auto. Qed.

Lemma emits_session_set k v : emits P (session_set k v).
Proof. intros st r st' [= <- <-]. exists []. simpl. rewrite app_nil_r. auto. Qed.

Lemma emits_bind {A B} (m : M A) (f : A -> M B) :
  emits P m -> (forall a, emits P (f a)) -> emits P (m ≫= f).
Proof.
  intros Hm Hf st r st' H. rewrite bind_run in H.
  destruct (m st) as [[a|e] st1] eqn:E.
  - destruct (Hm _ _ _ E) as (ev1 & E1 & H1).
    destruct (Hf a _ _ _ H) as (ev2 & E2 & H2).
    exists (ev1 ++ ev2). rewrite E2, E1, app_assoc.
    split; [reflexivity | apply Forall_app; auto].
  - injection H as <- <-. exact (Hm _ _ _ E).
Qed.

Lemma emits_try_except {A} (m : M A) (h : exn -> M A) :
  emits P m -> (forall e, emits P (h e)) -> emits P (try_except m h).
Proof.
  intros Hm Hh st r st' H. unfold try_except in H.
  destruct (m st) as [[a|e] st1] eqn:E.
  - injection H as <- <-. exact (Hm _ _ _ E).
  - destruct (Hm _ _ _ E) as (ev1 & E1 & H1).
    destruct (Hh e _ _ _ H) as (ev2 & E2 & H2).
    exists (ev1 ++ ev2). rewrite E2, E1, app_assoc.
    split; [reflexivity | apply Forall_app; auto].
Qed.

Lemma emits_fetch c : (forall r, P (Fetched c r)) -> emits P (fetch c).
Proof.
  intros HP st r st' H. unfold fetch in H.
  destruct (next (maps st)) as [r0 rest]. injection H as <- <-.
  exists [Fetched c r0]. split; [reflexivity | auto].
Qed.

Lemma emits_generate p : (forall r, P (Generated p r)) -> emits P (generate p).
Proof.
  intros HP st r st' H. unfold generate in H.
  destruct (next (model st)) as [r0 rest]. injection H as <- <-.
  exists [Generated p r0]. split; [reflexivity | auto].
Qed.

Lemma emits_for_each {A B} (l : list A) (body : B -> A -> M B) :
  (forall acc x, emits P (body acc x)) -> forall acc, emits P (for_each l acc body).
Proof.
  intros Hb. induction l as [|x r IH]; intros acc; simpl.
  - apply emits_mret.
  - apply emits_bind; [apply Hb | intros a; apply IH].
Qed.

End Emits.

Create HintDb emits.

#[local] Hint Resolve emits_mret emits_lift emits_get_session emits_session_set
  emits_bind emits_try_except emits_for_each : emits.

Lemma emits_search_and_sort P lat lng radius :
  (forall e, is_search e -> P e) -> emits P (search_and_sort lat lng radius).
Proof.
  intros HP. unfold search_and_sort.
  apply emits_bind; [|auto with emits].
  apply emits_for_each. intros acc [category keyword]. unfold search_category.
  apply emits_bind; [apply emits_fetch; intros; apply HP; exact I|]. intros places_data.
  apply emits_bind; [apply emits_lift|]. intros results.
  apply emits_bind; [apply emits_lift|]. intros places.
  apply emits_for_each. intros clinics place. unfold clinic_of.
  apply emits_bind; [|auto with emits].
  apply emits_bind; [apply emits_lift|]. intros place_id.
  apply emits_bind; [apply emits_fetch; intros; apply HP; exact I|]. intros details.
  repeat (apply emits_bind; [apply emits_lift|]; intros ?).
  apply emits_mret.
Qed.

Lemma emits_find_clinics P req :
  (forall c r, P (Fetched c r)) -> emits P (find_clinics req).
Proof.
  intros HP.
  assert (HS : forall e, is_search e -> P e)
    by (intros [|c r] He; [destruct He | apply HP]).
  unfold find_clinics.
  repeat (apply emits_bind; [apply emits_lift|]; intros ?).
  destruct a; try (repeat (apply emits_bind; [apply emits_lift|]; intros ?);
                   apply emits_search_and_sort; exact HS).
  apply emits_bind; [apply emits_fetch; auto|]. intros geocode_data.
  apply emits_bind; [apply emits_lift|]. intros status.
  destruct (negb (Py.eq_str status "OK")); [apply emits_mret|].
  repeat (apply emits_bind; [apply emits_lift|]; intros ?).
  apply emits_search_and_sort; exact HS.
Qed.

(** ** Symbolic execution of a handler *)

(** Runs a handler in hypothesis [H], splitting on everything it inspects:
    the next scripted reply first, then the innermost scrutinee. *)
Ltac exec H :=
  repeat first
    [ rewrite bind_run in H
    | rewrite lift_run in H
    | progress unfold generate, fetch, try_except, treatment_plan, get_session,
        session_set, mret, M_ret in H
    | progress cbn [answer next fst snd session model maps trace] in H
    | match type of H with context [next ?l] => destruct l as [|[?|?] ?] eqn:? end
    | match type of H with
      | context [match ?x with _ => _ end] =>
          lazymatch x with
          | context [match _ with _ => _ end] => fail
          | _ => destruct x eqn:?
          end
      end ].

(** Reads the result off a finished run and lists the events of its trace. *)
Ltac conclude Ht Hin :=
  match goal with
  | H : (_, _) = (_, _) |- _ => injection H as <- <-
  end;
  cbn [trace] in Hin; rewrite ?Ht in Hin; simpl in Hin;
  repeat match goal with
  | H : _ \/ _ |- _ => destruct H
  | H : False |- _ => destruct H
  | H : Generated _ _ = Generated _ _ |- _ => injection H as <- <-
  | H : Generated _ _ = Fetched _ _ |- _ => discriminate H
  | H : Generated _ (Reply _) = Generated _ (Fault _) |- _ => discriminate H
  end.

Ltac finish := simpl; solve [ reflexivity | eauto | discriminate | congruence ].

(** ** Failure of a model call *)

Section ModelFailure.

Variables (req : request) (st st' : state) (res : outcome response).
Variables (p : prompt) (msg : string).
Hypothesis Hfresh : trace st = [].
Hypothesis Hfailed : In (Generated p (Fault msg)) (trace st').

Lemma analyze_failure :
  analyze req st = (res, st') ->
  after_model_failure p msg res /\ forall d, p <> TreatmentPlanPrompt d.
Proof using Hfresh Hfailed.
  intros H.
  unfold analyze, gather_predictions, predict_disease_from_text,
    generate_followup_questions in H.
  exec H. all: conclude Hfresh Hfailed. all: split; [finish | intros; discriminate].
Qed.

Lemma index_failure :
  index req st = (res, st') ->
  after_model_failure p msg res /\ forall d, p <> TreatmentPlanPrompt d.
Proof using Hfresh Hfailed.
  intros H.
  unfold index, gather_predictions, predict_disease_from_text,
    generate_followup_questions in H.
  exec H. all: conclude Hfresh Hfailed. all: split; [finish | intros; discriminate].
Qed.

Lemma health_chat_failure :
  health_chat req st = (res, st') ->
  after_model_failure p msg res /\ forall d, p <> TreatmentPlanPrompt d.
Proof using Hfresh Hfailed.
  intros H. unfold health_chat in H.
  exec H. all: conclude Hfresh Hfailed. all: split; [finish | intros; discriminate].
Qed.

Lemma treatment_failure :
  treatment req st = (res, st') ->
  after_model_failure p msg res /\ forall d, p <> TreatmentPlanPrompt d.
Proof using Hfresh Hfailed.
  intros H. unfold treatment in H.
  exec H. all: conclude Hfresh Hfailed. all: split; [finish | intros; discriminate].
Qed.

Lemma final_diagnosis_api_failure :
  final_diagnosis_api req st = (res, st') -> after_model_failure p msg res.
Proof using Hfresh Hfailed.
  intros H. unfold final_diagnosis_api in H.
  exec H. all: conclude Hfresh Hfailed. all: finish.
Qed.

Lemma final_diagnosis_page_failure :
  final_diagnosis_page req st = (res, st') -> after_model_failure p msg res.
Proof using Hfresh Hfailed.
  intros H. unfold final_diagnosis_page in H.
  exec H. all: conclude Hfresh Hfailed. all: finish.
Qed.

Lemma followup_no_model_call : followup req st = (res, st') -> False.
Proof using Hfresh Hfailed.
  intros H. unfold followup in H.
  exec H. all: conclude Hfresh Hfailed.
Qed.

Lemma find_clinics_no_model_call : find_clinics req st = (res, st') -> False.
Proof using Hfresh Hfailed.
  intros H.
  destruct (emits_find_clinics is_fetch req (fun _ _ => I) _ _ _ H) as (evs & E & Hall).
  rewrite E, Hfresh in Hfailed. simpl in Hfailed.
  rewrite List.Forall_forall in Hall. exact (Hall _ Hfailed).
Qed.

End ModelFailure.

(** C4, as stated, fails: the chat endpoint is a model call site too, and
    it catches the failure and answers with HTTP 500 and the error message
    instead of letting it propagate. *)
Lemma health_chat_catches_failure :
  let question := PStr "Is spotting normal?" in
  let req := mkRequest POST [] (PDict [("question", question)]) in
  let st := mkState ∅ [Fault "quota exceeded"] [] [] in
  let '(res, st') := health_chat req st in
  trace st' = [Generated (ChatPrompt question) (Fault "quota exceeded")]
  /\ res = Ret (Jsonify (PDict [("error", PStr "quota exceeded")]) 500)
  /\ ~ after_model_failure_spec (ChatPrompt question) "quota exceeded" res.
Proof. vm_compute. split; [reflexivity | split; [reflexivity | discriminate]]. Qed.

(** C4, amended: whichever handler runs, when one of its model calls fails
    with a message, what the caller sees depends on the prompt of that call
    only.  For the treatment-plan prompt, issued by [final_diagnosis_api]
    and [final_diagnosis_page] and by no other handler, the response is
    produced and carries the fixed fallback text as its treatment.  For the
    chat prompt the handler answers HTTP 500 with the message of the
    failure.  For every other prompt (prediction, follow-up questions, final
    diagnosis of either handler, the treatment page) the failure leaves the
    handler as an exception. *)
Theorem model_failure_handling (ep : endpoint) (req : request) (st st' : state)
    (res : outcome response) (p : prompt) (msg : string) :
  trace st = [] ->
  handler ep req st = (res, st') ->
  In (Generated p (Fault msg)) (trace st') ->
  after_model_failure p msg res
  /\ (forall d, p = TreatmentPlanPrompt d -> ep = FinalDiagnosisApi \/ ep = FinalDiagnosisPage).
Proof.
  intros Ht H Hin. destruct ep; cbn [handler] in H.
  - destruct (analyze_failure _ _ _ _ _ _ Ht Hin H) as [Ha Hn].
    split; [exact Ha | intros d ->; destruct (Hn d eq_refl)].
  - split; [exact (final_diagnosis_api_failure _ _ _ _ _ _ Ht Hin H) | auto].
  - destruct (find_clinics_no_model_call _ _ _ _ _ _ Ht Hin H).
  - destruct (health_chat_failure _ _ _ _ _ _ Ht Hin H) as [Ha Hn].
    split; [exact Ha | intros d ->; destruct (Hn d eq_refl)].
  - destruct (index_failure _ _ _ _ _ _ Ht Hin H) as [Ha Hn].
    split; [exact Ha | intros d ->; destruct (Hn d eq_refl)].
  - destruct (followup_no_model_call _ _ _ _ _ _ Ht Hin H).
  - split; [exact (final_diagnosis_page_failure _ _ _ _ _ _ Ht Hin H) | auto].
  - destruct (treatment_failure _ _ _ _ _ _ Ht Hin H) as [Ha Hn].
    split; [exact Ha | intros d ->; destruct (Hn d eq_refl)].
Qed.

Lemma model_failure_handling_witness :
  let req := mkRequest POST [] (PDict [("predictions", PList []); ("user_answers", PDict [])]) in
  let st := mkState ∅ [Reply " Psoriasis "; Fault "deadline exceeded"] [] [] in
  fst (final_diagnosis_api req st)
  = Ret (Jsonify (PDict [("final_disease", PStr "Psoriasis"); ("treatment", PStr FALLBACK)]) 200)
  /\ after_model_failure (TreatmentPlanPrompt "Psoriasis") "deadline exceeded"
       (fst (final_diagnosis_api req st)).
Proof.
  intros req st. split; [vm_compute; reflexivity|].
  refine (proj1 (model_failure_handling FinalDiagnosisApi req st
                   (snd (final_diagnosis_api req st)) (fst (final_diagnosis_api req st))
                   (TreatmentPlanPrompt "Psoriasis") "deadline exceeded" eq_refl _ _)).
  - cbn [handler]. destruct (final_diagnosis_api req st); reflexivity.
  - vm_compute. right. left. reflexivity.
Defined.

(** Each model call site can fail: the handlers on a script whose last
    reply is a failure. *)
Example model_failures_observed :
  let failing := Fault "unavailable" in
  let described := mkRequest POST [("description", "dry scaly skin")] PNone in
  let answered :=
    mkState {["predictions" := PList []; "user_answers" := PDict []]} in
  fst (analyze described (mkState ∅ [failing] [] [])) = Raise (UpstreamError "unavailable")
  /\ fst (analyze described (mkState ∅ [Reply "[]"; failing] [] []))
     = Raise (UpstreamError "unavailable")
  /\ fst (final_diagnosis_api (mkRequest POST [] (PDict [])) (mkState ∅ [failing] [] []))
     = Raise (UpstreamError "unavailable")
  /\ fst (final_diagnosis_page (mkRequest GET [] PNone) (answered [failing] [] []))
     = Raise (UpstreamError "unavailable")
  /\ (exists ctx, fst (final_diagnosis_page (mkRequest GET [] PNone)
                         (answered [Reply "Acne"; failing] [] []))
                  = Ret (Render "final_diagnosis.html" ctx)
                  /\ Py.dict_get "treatment" ctx = Some (PStr FALLBACK))
  /\ fst (treatment (mkRequest GET [] PNone) (mkState ∅ [failing] [] []))
     = Raise (UpstreamError "unavailable").
Proof.
  vm_compute. repeat split. eexists. split; reflexivity.
Qed.

(** ** Treatment page *)

(** C10: on the treatment page the disease name is the session's
    [final_disease], or ["Unknown"] when the session has none; one model
    call is made with it; the text of the reply is rendered as it is, not
    trimmed; and a failure of the call leaves the handler as an exception,
    no fallback text being substituted. *)
Theorem treatment_page (req : request) (st : state) (r : reply string)
    (rest : list (reply string)) :
  model st = r :: rest ->
  let final_disease :=
    match session st !! "final_disease" with
    | Some d => d
    | None => PStr "Unknown"
    end in
  treatment req st =
  (match r with
   | Reply text =>
       Ret (Render "treatment.html"
              [("final_disease", final_disease); ("treatment", PStr text)])
   | Fault msg => Raise (UpstreamError msg)
   end,
   mkState (session st) rest (maps st)
     (trace st ++ [Generated (TreatmentPagePrompt final_disease) r])).
Proof.
  intros Hm final_disease. unfold treatment. rewrite bind_run. cbn [get_session].
  rewrite bind_run. unfold generate. rewrite Hm. cbn [next].
  destruct r; reflexivity.
Qed.

Lemma treatment_page_witness :
  let req := mkRequest GET [] PNone in
  treatment req (mkState ∅ [Reply "  - rest  "] [] [])
  = (Ret (Render "treatment.html"
            [("final_disease", PStr "Unknown"); ("treatment", PStr "  - rest  ")]),
     mkState ∅ [] [] [Generated (TreatmentPagePrompt (PStr "Unknown")) (Reply "  - rest  ")])
  /\ treatment req (mkState {["final_disease" := PStr "Acne"]} [Fault "timeout"] [] [])
     = (Raise (UpstreamError "timeout"),
        mkState {["final_disease" := PStr "Acne"]} [] []
          [Generated (TreatmentPagePrompt (PStr "Acne")) (Fault "timeout")]).
Proof.
  intros req. split.
  - exact (treatment_page req (mkState ∅ [Reply "  - rest  "] [] []) _ _ eq_refl).
  - exact (treatment_page req (mkState {["final_disease" := PStr "Acne"]} [Fault "timeout"] [] [])
             _ _ eq_refl).
Defined.

(** ** Clinic search: missing location *)

(** C9, as stated, fails: the radius is computed before the location is
    looked at, so a request that also sends a null range fails in the
    multiplication, with a [TypeError], and never reaches the coordinates
    branch. *)
Lemma find_clinics_null_range :
  let req := mkRequest POST [] (PDict [("range", PNone)]) in
  let st := mkState ∅ [] [] [] in
  find_clinics req st = (Raise TypeError, st)
  /\ find_clinics req st <> (Raise AttributeError, st).
Proof. split; [reflexivity | discriminate]. Qed.

(** C9, amended: a request whose JSON object omits [location], or gives
    null for it, always fails with an exception that leaves the handler,
    before any outside call, so never with an HTTP 400 answer.  When the
    radius can be computed (the range is omitted, or is a number, a string
    or a list) the handler takes the coordinates branch and the exception
    is the [AttributeError] of calling [.get] on [None]. *)
Theorem find_clinics_missing_location (req : request) (st : state)
    (kvs : list (string * pyval)) :
  body req = PDict kvs ->
  Py.dict_get "location" kvs = None \/ Py.dict_get "location" kvs = Some PNone ->
  let range_km :=
    match Py.dict_get "range" kvs with
    | Some r => r
    | None => PInt 20
    end in
  (exists e, find_clinics req st = (Raise e, st))
  /\ (forall radius, Py.mul range_km 1000 = Ret radius ->
      find_clinics req st = (Raise AttributeError, st))
  /\ (Py.dict_get "range" kvs = None -> find_clinics req st = (Raise AttributeError, st)).
Proof.
  intros Hb Hloc range_km.
  assert (Hget : Py.get (body req) "location" PNone = Ret PNone).
  { rewrite Hb. simpl. destruct Hloc as [-> | ->]; reflexivity. }
  assert (Hrun : find_clinics req st =
                 match Py.mul range_km 1000 with
                 | Ret _ => (Raise AttributeError, st)
                 | Raise e => (Raise e, st)
                 end).
  { unfold find_clinics. rewrite bind_run, lift_run, Hget.
    rewrite bind_run, lift_run, Hb. cbn [Py.get]. fold range_km.
    rewrite bind_run, lift_run. destruct (Py.mul range_km 1000); reflexivity. }
  split; [|split].
  - rewrite Hrun. destruct (Py.mul range_km 1000); eauto.
  - intros radius Hr. rewrite Hrun, Hr. reflexivity.
  - intros Hnone. rewrite Hrun. unfold range_km. rewrite Hnone. reflexivity.
Qed.

Lemma find_clinics_missing_location_witness :
  let st := mkState ∅ [] [] [] in
  find_clinics (mkRequest POST [] (PDict [])) st = (Raise AttributeError, st)
  /\ find_clinics (mkRequest POST [] (PDict [("location", PNone); ("range", PInt 5)])) st
     = (Raise AttributeError, st).
Proof.
  intros st. split.
  - refine (proj2 (proj2 (find_clinics_missing_location
                            (mkRequest POST [] (PDict [])) st [] eq_refl _)) eq_refl).
    left. reflexivity.
  - refine (proj1 (proj2 (find_clinics_missing_location
                            (mkRequest POST [] (PDict [("location", PNone); ("range", PInt 5)]))
                            st _ eq_refl _)) (PInt 5000) eq_refl).
    right. reflexivity.
Defined.

(** ** Signaling relay *)

(** C8, as stated, fails: the handler tests the truth value of [room] and
    [signalData], not their presence, so an event that carries both but
    whose [signalData] is an empty object is answered with the error. *)
Lemma on_signal_empty_payload :
  let rooms := fun room : pyval =>
    match room with PStr "r1" => ({["A"; "B"]} : gset Relay.sid) | _ => ∅ end in
  let data := PDict [("room", PStr "r1"); ("signalData", PDict [])] in
  Relay.on_signal rooms "A" data
  = Ret (Relay.mkEmission "error" (PDict [("message", PStr "Missing room or signalData")])
           {["A"]}).
Proof. reflexivity. Qed.

(** C8, amended: for a signal event whose [room] and [signalData] are both
    present and true in Python's sense (not null, false, zero or empty),
    the relay emits one [signal] event carrying that [signalData] to the
    members of the room other than the sender, who gets nothing; when
    either is missing or not true, it emits one [error] event to the sender
    only. *)
Theorem on_signal_relays (rooms : pyval -> gset Relay.sid) (sender : Relay.sid)
    (kvs : list (string * pyval)) :
  let room := match Py.dict_get "room" kvs with Some v => v | None => PNone end in
  let signalData := match Py.dict_get "signalData" kvs with Some v => v | None => PNone end in
  (Py.truthy room = true -> Py.truthy signalData = true ->
   exists e, Relay.on_signal rooms sender (PDict kvs) = Ret e
     /\ Relay.ev_name e = "signal"
     /\ Relay.ev_payload e = PDict [("signalData", signalData)]
     /\ (sender ∉ Relay.ev_to e)
     /\ forall peer, peer ∈ Relay.ev_to e <-> peer ∈ rooms room /\ peer <> sender)
  /\ (Py.truthy room = false \/ Py.truthy signalData = false ->
      Relay.on_signal rooms sender (PDict kvs)
      = Ret (Relay.mkEmission "error"
               (PDict [("message", PStr "Missing room or signalData")]) {[sender]}))
  /\ (Py.dict_get "room" kvs = None \/ Py.dict_get "signalData" kvs = None ->
      Relay.on_signal rooms sender (PDict kvs)
      = Ret (Relay.mkEmission "error"
               (PDict [("message", PStr "Missing room or signalData")]) {[sender]})).
Proof.
  intros room signalData.
  assert (Hrun : Relay.on_signal rooms sender (PDict kvs) =
                 if Py.truthy room && Py.truthy signalData
                 then Ret (Relay.emit_to rooms "signal" (PDict [("signalData", signalData)])
                             room sender)
                 else Ret (Relay.emit_back "error"
                             (PDict [("message", PStr "Missing room or signalData")]) sender))
    by reflexivity.
  split; [|split].
  - intros Hr Hs. rewrite Hrun, Hr, Hs. eexists. split; [reflexivity|].
    cbn [Relay.emit_to Relay.ev_name Relay.ev_payload Relay.ev_to].
    split; [reflexivity|]. split; [reflexivity|].
    split; [|intros peer]; rewrite ?elem_of_difference, ?elem_of_singleton; tauto.
  - intros H. rewrite Hrun.
    destruct H as [-> | ->]; [|rewrite andb_false_r]; reflexivity.
  - intros H. rewrite Hrun. unfold room, signalData.
    destruct H as [-> | ->]; [|rewrite andb_false_r]; reflexivity.
Qed.

Lemma on_signal_relays_witness :
  let rooms := fun room : pyval =>
    match room with PStr "r1" => ({["A"; "B"]} : gset Relay.sid) | _ => ∅ end in
  let signalData := PDict [("sdp", PStr "x")] in
  exists e,
    Relay.on_signal rooms "A" (PDict [("room", PStr "r1"); ("signalData", signalData)]) = Ret e
    /\ Relay.ev_name e = "signal"
    /\ Relay.ev_payload e = PDict [("signalData", signalData)]
    /\ ("A" ∉ Relay.ev_to e)
    /\ ("B" ∈ Relay.ev_to e).
Proof.
  intros rooms signalData.
  destruct (proj1 (on_signal_relays rooms "A" [("room", PStr "r1"); ("signalData", signalData)])
              eq_refl eq_refl) as (e & Hrun & Hname & Hpay & Hnot & Hto).
  exists e. split; [exact Hrun|]. split; [exact Hname|]. split; [exact Hpay|].
  split; [exact Hnot|]. apply Hto. split; [cbn; set_solver | discriminate].
Defined.

(** ** Clinic search: geocoding failure *)

Lemma eq_str_true v s : Py.eq_str v s = true <-> v = PStr s.
Proof.
  destruct v; simpl; try (split; [discriminate | intros [=]]).
  rewrite String.eqb_eq. split; [intros -> | intros [=]]; congruence.
Qed.

(** C3: for a request whose location is a string, when the geocoding call
    is answered with an object whose status is not ["OK"] (or is missing),
    the handler answers HTTP 400 with the fixed error payload, and the
    geocoding call is the only outside call of the request: no nearby
    search, no place details. *)
Theorem find_clinics_geocode_failure (req : request) (st st' : state)
    (res : outcome response) (address a : string) (kvs : list (string * pyval)) :
  trace st = [] ->
  Py.get (body req) "location" PNone = Ret (PStr address) ->
  find_clinics req st = (res, st') ->
  In (Fetched (Geocode a) (Reply (PDict kvs))) (trace st') ->
  Py.dict_get "status" kvs <> Some (PStr "OK") ->
  res = Ret (Jsonify (PDict [("error", PStr "Unable to geocode location")]) 400)
  /\ trace st' = [Fetched (Geocode address) (Reply (PDict kvs))].
Proof.
  intros Ht Hloc H Hin Hstatus.
  unfold find_clinics in H. rewrite bind_run, lift_run, Hloc in H.
  rewrite bind_run, lift_run in H.
  destruct (Py.get (body req) "range" (PInt 20)) as [range_km|e];
    [|injection H as <- <-; rewrite Ht in Hin; destruct Hin].
  rewrite bind_run, lift_run in H.
  destruct (Py.mul range_km 1000) as [radius|e];
    [|injection H as <- <-; rewrite Ht in Hin; destruct Hin].
  rewrite bind_run in H. unfold fetch at 1 in H.
  destruct (next (maps st)) as [r rest] eqn:Hnext.
  destruct r as [g|msg]; cbn [answer] in H.
  2:{ injection H as <- <-. cbn [trace] in Hin. rewrite Ht in Hin.
      destruct Hin as [[=]|[]]. }
  rewrite bind_run, lift_run in H.
  destruct (Py.get g "status" PNone) as [status|e] eqn:Hs.
  2:{ injection H as <- <-. cbn [trace] in Hin. rewrite Ht in Hin.
      destruct Hin as [[= -> ->]|[]]. discriminate Hs. }
  destruct (negb (Py.eq_str status "OK")) eqn:Hok.
  - injection H as <- <-. cbn [trace] in Hin |- *. rewrite Ht in Hin |- *.
    destruct Hin as [[= -> ->]|[]]. split; reflexivity.
  - exfalso. apply negb_false_iff, eq_str_true in Hok. subst status.
    set (st1 := mkState _ _ _ _) in H.
    assert (He : emits is_search
             (results ← lift (Py.getitem g "results");
              first ← lift (Py.getitem0 results);
              geometry ← lift (Py.getitem first "geometry");
              location ← lift (Py.getitem geometry "location");
              lat ← lift (Py.getitem location "lat");
              lng ← lift (Py.getitem location "lng");
              search_and_sort lat lng radius)).
    { repeat (apply emits_bind; [apply emits_lift|]; intros ?).
      apply emits_search_and_sort. auto. }
    destruct (He _ _ _ H) as (evs & E & Hall).
    rewrite E in Hin. subst st1. cbn [trace] in Hin. rewrite Ht in Hin.
    simpl in Hin. destruct Hin as [[= -> ->] | Hin].
    + simpl in Hs. injection Hs as Hs. apply Hstatus.
      destruct (Py.dict_get "status" kvs); congruence.
    + rewrite List.Forall_forall in Hall. exact (Hall _ Hin).
Qed.

Lemma find_clinics_geocode_failure_witness :
  let req := mkRequest POST [] (PDict [("location", PStr "InvalidPlaceXYZ")]) in
  let st := mkState ∅ [] [Reply (PDict [("status", PStr "ZERO_RESULTS")])] [] in
  fst (find_clinics req st)
  = Ret (Jsonify (PDict [("error", PStr "Unable to geocode location")]) 400)
  /\ trace (snd (find_clinics req st))
     = [Fetched (Geocode "InvalidPlaceXYZ") (Reply (PDict [("status", PStr "ZERO_RESULTS")]))].
Proof.
  intros req st.
  refine (find_clinics_geocode_failure req st (snd (find_clinics req st))
            (fst (find_clinics req st)) "InvalidPlaceXYZ" "InvalidPlaceXYZ"
            [("status", PStr "ZERO_RESULTS")] eq_refl eq_refl _ _ _).
  - destruct (find_clinics req st); reflexivity.
  - vm_compute. left. reflexivity.
  - vm_compute. discriminate.
Defined.

(** ** Clinic search: order of the result *)

Lemma rank_unrecognized c : ~ recognized c -> rank c = 999%nat.
Proof.
  intros H. unfold rank, sorted_order. simpl.
  destruct (Py.eq_str c "NGO") eqn:E1; [apply eq_str_true in E1; destruct H; left; exact E1|].
  destruct (Py.eq_str c "Government") eqn:E2;
    [apply eq_str_true in E2; destruct H; right; left; exact E2|].
  destruct (Py.eq_str c "Private") eqn:E3;
    [apply eq_str_true in E3; destruct H; right; right; exact E3|].
  reflexivity.
Qed.

Lemma goes_before_rank c c' : goes_before c c' -> (rank c < rank c')%nat.
Proof.
  intros [ | | | d d' Hd Hd']; try (vm_compute; lia).
  rewrite (rank_unrecognized _ Hd').
  destruct Hd as [-> | [-> | ->]]; vm_compute; lia.
Qed.

Lemma sort_key_rank x k : sort_key x = Ret k -> k = rank (category x).
Proof.
  unfold sort_key, category. destruct (Py.getitem x "category"); [|discriminate].
  intros [= <-]. reflexivity.
Qed.

Lemma insert_keyed_perm a l : Permutation (a :: l) (insert_keyed a l).
Proof.
  induction l as [|b r IH]; simpl; [reflexivity|].
  destruct (fst a <=? fst b)%nat; [reflexivity|].
  rewrite perm_swap. constructor. exact IH.
Qed.

Lemma stable_sort_perm l : Permutation l (stable_sort l).
Proof.
  induction l as [|a r IH]; simpl; [constructor|].
  rewrite <- insert_keyed_perm. constructor. exact IH.
Qed.

Lemma insert_keyed_sorted a l :
  StronglySorted key_le l -> StronglySorted key_le (insert_keyed a l).
Proof.
  induction 1 as [|b r Hr IH Hb]; simpl.
  - repeat constructor.
  - destruct (fst a <=? fst b)%nat eqn:E.
    + apply Nat.leb_le in E. constructor; [constructor; assumption|].
      constructor; [exact E|].
      eapply List.Forall_impl; [|exact Hb]. intros c Hc. unfold key_le in *. lia.
    + apply Nat.leb_gt in E. constructor; [exact IH|].
      rewrite <- insert_keyed_perm. constructor; [unfold key_le; lia | exact Hb].
Qed.

Lemma stable_sort_sorted l : StronglySorted key_le (stable_sort l).
Proof.
  induction l as [|a r IH]; simpl; [constructor | apply insert_keyed_sorted, IH].
Qed.

Lemma keyed_spec l kl :
  keyed l = Ret kl ->
  map snd kl = l /\ List.Forall (fun a => fst a = rank (category (snd a))) kl.
Proof.
  revert kl. induction l as [|x r IH]; simpl; intros kl H.
  - injection H as <-. split; [reflexivity | constructor].
  - destruct (sort_key x) as [k|] eqn:Ek; [|discriminate].
    destruct (keyed r) as [kr|]; [|discriminate]. injection H as <-.
    destruct (IH kr eq_refl) as [Hm Hf]. simpl. split; [congruence|].
    constructor; [apply sort_key_rank, Ek | exact Hf].
Qed.

Lemma StronglySorted_lookup {A} (R : A -> A -> Prop) (l : list A) :
  StronglySorted R l ->
  forall i j a b, (i < j)%nat -> l !! i = Some a -> l !! j = Some b -> R a b.
Proof.
  induction 1 as [|x r Hr IH Hx]; intros i j a b Hij Hi Hj; [discriminate|].
  destruct j as [|j]; [lia|]. simpl in Hj.
  destruct i as [|i]; simpl in Hi.
  - injection Hi as <-. rewrite List.Forall_forall in Hx. apply Hx.
    apply list_elem_of_In. eapply list_elem_of_lookup_2. exact Hj.
  - eapply IH; [|exact Hi|exact Hj]. lia.
Qed.

Lemma sort_clinics_spec cs cs' :
  sort_clinics cs = Ret cs' -> Permutation cs cs' /\ in_priority_order cs'.
Proof.
  unfold sort_clinics. destruct (keyed cs) as [kl|] eqn:Ek; [|discriminate].
  intros [= <-]. destruct (keyed_spec _ _ Ek) as [Hm Hf]. split.
  - rewrite <- Hm. apply Permutation_map, stable_sort_perm.
  - intros i j a b Hi Hj Hab.
    rewrite list_lookup_fmap in Hi, Hj.
    destruct (stable_sort kl !! i) as [[ka xa]|] eqn:Ei; [|discriminate].
    destruct (stable_sort kl !! j) as [[kb xb]|] eqn:Ej; [|discriminate].
    simpl in Hi, Hj. injection Hi as ->. injection Hj as ->.
    assert (Hf' : List.Forall (fun a => fst a = rank (category (snd a))) (stable_sort kl)).
    { eapply Permutation_Forall; [apply stable_sort_perm | exact Hf]. }
    rewrite List.Forall_forall in Hf'.
    assert (Ha : ka = rank (category a)).
    { apply (Hf' (ka, a)), list_elem_of_In. eapply list_elem_of_lookup_2. exact Ei. }
    assert (Hb : kb = rank (category b)).
    { apply (Hf' (kb, b)), list_elem_of_In. eapply list_elem_of_lookup_2. exact Ej. }
    apply goes_before_rank in Hab.
    destruct (Nat.lt_trichotomy i j) as [? | [-> | Hji]]; [assumption | |].
    + rewrite Ei in Ej. injection Ej as -> ->. lia.
    + pose proof (StronglySorted_lookup _ _ (stable_sort_sorted kl) _ _ _ _ Hji Ej Ei) as Hle.
      unfold key_le in Hle. simpl in Hle. lia.
Qed.

Lemma search_and_sort_ret lat lng radius st r st' :
  search_and_sort lat lng radius st = (Ret r, st') ->
  exists clinics sorted,
    sort_clinics clinics = Ret sorted
    /\ r = Jsonify (PDict [("clinics", PList sorted)]) 200.
Proof.
  unfold search_and_sort. intros H.
  apply bind_ret_inv in H as (clinics & st1 & _ & H).
  apply bind_ret_inv in H as (sorted & st2 & Hs & H).
  rewrite lift_run in Hs. injection Hs as Hs _.
  injection H as <- _. eauto.
Qed.

Lemma find_clinics_ret req st payload st' :
  find_clinics req st = (Ret (Jsonify payload 200), st') ->
  exists clinics sorted,
    sort_clinics clinics = Ret sorted /\ payload = PDict [("clinics", PList sorted)].
Proof.
  intros H. unfold find_clinics in H. exec H.
  all: try discriminate H.
  all: apply search_and_sort_ret in H as (clinics & sorted & Hs & [= ->]); eauto.
Qed.

(** C2: the sort puts the clinic records in the order NGO, Government,
    Private, anything else last, and keeps all of them; and the clinic
    list of every successful answer of [find_clinics] is in that order,
    whatever the maps API answered to the searches. *)
Theorem find_clinics_sorted :
  (forall cs cs', sort_clinics cs = Ret cs' -> Permutation cs cs' /\ in_priority_order cs')
  /\ (forall req st st' payload,
        find_clinics req st = (Ret (Jsonify payload 200), st') ->
        exists cs, payload = PDict [("clinics", PList cs)] /\ in_priority_order cs).
Proof.
  split; [exact sort_clinics_spec|].
  intros req st st' payload H.
  apply find_clinics_ret in H as (clinics & sorted & Hs & ->).
  exists sorted. split; [reflexivity | apply (sort_clinics_spec _ _ Hs)].
Qed.

Lemma find_clinics_sorted_witness :
  let mixed := [of_category "Private"; of_category "Dental";
                of_category "NGO"; of_category "Government"] in
  let req := mkRequest POST []
    (PDict [("location", PDict [("lat", PInt 28); ("lng", PInt 77)])]) in
  let st := mkState ∅ []
    [found [place "n1" "Care Trust"]; details "1 Main Rd";
     found [];
     found [place "p1" "Skin Clinic"; place "p2" "Derma Plus"];
     details "2 High St"; details "3 Low St"] [] in
  (sort_clinics mixed
   = Ret [of_category "NGO"; of_category "Government";
          of_category "Private"; of_category "Dental"]
   /\ in_priority_order [of_category "NGO"; of_category "Government";
                         of_category "Private"; of_category "Dental"])
  /\ exists cs, fst (find_clinics req st) = Ret (Jsonify (PDict [("clinics", PList cs)]) 200)
                /\ length cs = 3%nat
                /\ in_priority_order cs.
Proof.
  intros mixed req st. split.
  - split; [reflexivity|].
    apply (proj1 find_clinics_sorted mixed). reflexivity.
  - eassert (E : find_clinics req st = (Ret (Jsonify (PDict [("clinics", PList _)]) 200), _))
      by (vm_compute; reflexivity).
    destruct (proj2 find_clinics_sorted _ _ _ _ E) as (cs & [= <-] & Hord).
    eexists. split; [rewrite E; reflexivity|]. split; [reflexivity | exact Hord].
Defined.

(** * Further properties *)

(** X1: a chat request whose JSON object has no [question], or one that
    counts as false (null, empty text, zero), is answered with HTTP 400
    and [Question is required], and no model call is made: the state is
    left as it was. *)
Theorem health_chat_requires_question (req : request) (st : state)
    (kvs : list (string * pyval)) :
  body req = PDict kvs ->
  (Py.dict_get "question" kvs = None
   \/ exists q, Py.dict_get "question" kvs = Some q /\ Py.truthy q = false) ->
  health_chat req st
  = (Ret (Jsonify (PDict [("error", PStr "Question is required")]) 400), st).
Proof.
  intros Hb Hq. unfold health_chat. rewrite bind_run, lift_run, Hb. cbn [Py.get].
  destruct Hq as [-> | (q & -> & Hq)]; [reflexivity|]. rewrite Hq. reflexivity.
Qed.

(** X2: for a JSON object the chat endpoint always answers, never
    raises: 400 without any call, 200 with the trimmed text of the reply
    after one model call, or 500 with the message of the failure of that
    one call. *)
Theorem health_chat_always_answers (req : request) (st : state)
    (kvs : list (string * pyval)) :
  body req = PDict kvs ->
  exists payload status st',
    health_chat req st = (Ret (Jsonify payload status), st')
    /\ ((status = 400%nat /\ st' = st)
        \/ (status = 200%nat /\ exists q text,
              trace st' = trace st ++ [Generated (ChatPrompt q) (Reply text)]
              /\ payload = PDict [("response", PStr (PyStr.strip text))])
        \/ (status = 500%nat /\ exists q msg,
              trace st' = trace st ++ [Generated (ChatPrompt q) (Fault msg)]
              /\ payload = PDict [("error", PStr msg)])).
Proof.
  intros Hb. unfold health_chat. rewrite bind_run, lift_run, Hb. cbn [Py.get].
  set (q := match Py.dict_get "question" kvs with Some x => x | None => PNone end).
  destruct (Py.truthy q).
  - cbn [negb]. unfold try_except. rewrite bind_run. unfold generate.
    destruct (next (model st)) as [[text|msg] rest]; cbn [answer].
    + do 3 eexists. split; [reflexivity|]. right. left. split; [reflexivity|].
      exists q, text. split; reflexivity.
    + do 3 eexists. split; [reflexivity|]. right. right. split; [reflexivity|].
      exists q, msg. split; reflexivity.
  - do 3 eexists. split; [reflexivity|]. left. split; reflexivity.
Qed.

Lemma gather_predictions_skipped req st :
  form_get "description" (form req) = None \/ form_get "description" (form req) = Some "" ->
  gather_predictions req st = (Ret [], st).
Proof. unfold gather_predictions. intros [-> | ->]; reflexivity. Qed.

Lemma gather_predictions_asked req st d text rest :
  form_get "description" (form req) = Some d -> d <> "" ->
  model st = Reply text :: rest ->
  gather_predictions req st
  = (Py.iter (decoded text), after_generate (PredictPrompt d) (Reply text) rest st).
Proof.
  intros Hd Hne Hm. unfold gather_predictions. rewrite Hd.
  apply String.eqb_neq in Hne. rewrite Hne.
  rewrite bind_run. unfold predict_disease_from_text.
  rewrite bind_run, (generate_reply _ _ _ _ Hm).
  fold (after_generate (PredictPrompt d) (Reply text) rest st).
  unfold decoded. destruct (Json.loads text) as [v|]; cbn [mret M_ret];
    rewrite bind_run, lift_run.
  - destruct (Py.iter v); reflexivity.
  - reflexivity.
Qed.

Lemma iter_scalar v : is_scalar v = true -> Py.iter v = Raise TypeError.
Proof. destruct v; simpl; intros H; (reflexivity || discriminate). Qed.

Lemma followup_questions_run predictions st text rest :
  model st = Reply text :: rest ->
  generate_followup_questions predictions st
  = (Ret (questions_of text), after_generate (FollowupPrompt predictions) (Reply text) rest st).
Proof.
  intros Hm. unfold generate_followup_questions.
  rewrite bind_run, (generate_reply _ _ _ _ Hm). reflexivity.
Qed.

(** X3: when the form has no description, or an empty one, [analyze]
    makes no prediction call; it asks for follow-up questions about an
    empty list of predictions and answers with that empty list. *)
Theorem analyze_without_description (req : request) (st : state) (text : string)
    (rest : list (reply string)) :
  form_get "description" (form req) = None \/ form_get "description" (form req) = Some "" ->
  model st = Reply text :: rest ->
  analyze req st
  = (Ret (Jsonify (PDict [("predictions", PList []);
                          ("followup_questions", PList (map PStr (questions_of text)))]) 200),
     after_generate (FollowupPrompt (PList [])) (Reply text) rest st).
Proof.
  intros Hd Hm. unfold analyze.
  rewrite bind_run, (gather_predictions_skipped _ _ Hd).
  rewrite bind_run, (followup_questions_run _ _ _ _ Hm). reflexivity.
Qed.

(** X4: when the model answers the prediction prompt with valid JSON
    that is null, a boolean or a number, extending the prediction list with
    it raises [TypeError]; [analyze] and the start page both fail with it
    after that one model call, before asking for follow-up questions and
    before writing the session. *)
Theorem scalar_answer_is_type_error (req : request) (st : state) (d text : string)
    (rest : list (reply string)) (v : pyval) :
  form_get "description" (form req) = Some d -> d <> "" ->
  model st = Reply text :: rest ->
  Json.loads text = Some v -> is_scalar v = true ->
  let st1 := after_generate (PredictPrompt d) (Reply text) rest st in
  analyze req st = (Raise TypeError, st1)
  /\ (method req = POST -> index req st = (Raise TypeError, st1)).
Proof.
  intros Hd Hne Hm Hv Hs st1.
  assert (Hg : gather_predictions req st = (Raise TypeError, st1)).
  { rewrite (gather_predictions_asked _ _ _ _ _ Hd Hne Hm).
    unfold decoded. rewrite Hv, (iter_scalar _ Hs). reflexivity. }
  split.
  - unfold analyze. rewrite bind_run, Hg. reflexivity.
  - intros Hp. unfold index. rewrite Hp, bind_run, Hg. reflexivity.
Qed.

(** X5: the predictions [analyze] returns are the items a loop sees in
    the decoded answer of the model: every element of a list, however many
    and whatever their shape, the keys of an object, the characters of a
    string, nothing for an answer that is not JSON; the follow-up prompt is
    built from exactly them. *)
Theorem analyze_returns_items (req : request) (st : state) (d text1 text2 : string)
    (rest : list (reply string)) (items : list pyval) :
  form_get "description" (form req) = Some d -> d <> "" ->
  model st = Reply text1 :: Reply text2 :: rest ->
  Py.iter (decoded text1) = Ret items ->
  analyze req st
  = (Ret (Jsonify (PDict [("predictions", PList items);
                          ("followup_questions", PList (map PStr (questions_of text2)))]) 200),
     after_generate (FollowupPrompt (PList items)) (Reply text2) rest
       (after_generate (PredictPrompt d) (Reply text1) (Reply text2 :: rest) st)).
Proof.
  intros Hd Hne Hm Hi. unfold analyze.
  rewrite bind_run, (gather_predictions_asked _ _ _ _ _ Hd Hne Hm), Hi.
  rewrite bind_run, (followup_questions_run _ _ text2 rest); reflexivity.
Qed.

Lemma session_set_run k v st : session_set k v st = (Ret tt, with_session k v st).
Proof. reflexivity. Qed.

Lemma index_run req st d text1 text2 rest items :
  method req = POST ->
  form_get "description" (form req) = Some d -> d <> "" ->
  model st = Reply text1 :: Reply text2 :: rest ->
  Py.iter (decoded text1) = Ret items ->
  index req st
  = (Ret (Redirect "followup"),
     with_session "detection_mode" (PStr "Text Only")
       (with_session "followup_questions" (PList (map PStr (questions_of text2)))
          (after_generate (FollowupPrompt (PList items)) (Reply text2) rest
             (with_session "predictions" (PList items)
                (after_generate (PredictPrompt d) (Reply text1) (Reply text2 :: rest) st))))).
Proof.
  intros Hp Hd Hne Hm Hi. unfold index. rewrite Hp.
  rewrite bind_run, (gather_predictions_asked _ _ _ _ _ Hd Hne Hm), Hi.
  rewrite bind_run, session_set_run.
  rewrite bind_run, (followup_questions_run _ _ text2 rest) by reflexivity.
  rewrite bind_run, session_set_run. rewrite bind_run, session_set_run. reflexivity.
Qed.

(** X6: a description posted to the start page makes two model calls
    and stores [predictions], [followup_questions] and [detection_mode]
    in the session, and touches no other key: answers or a disease name
    left by an earlier flow stay. *)
Theorem index_stores_flow (req : request) (st : state) (d text1 text2 : string)
    (rest : list (reply string)) (items : list pyval) :
  method req = POST ->
  form_get "description" (form req) = Some d -> d <> "" ->
  model st = Reply text1 :: Reply text2 :: rest ->
  Py.iter (decoded text1) = Ret items ->
  exists st',
    index req st = (Ret (Redirect "followup"), st')
    /\ session st' !! "predictions" = Some (PList items)
    /\ session st' !! "followup_questions" = Some (PList (map PStr (questions_of text2)))
    /\ session st' !! "detection_mode" = Some (PStr "Text Only")
    /\ (forall k, k <> "predictions" -> k <> "followup_questions" -> k <> "detection_mode" ->
        session st' !! k = session st !! k)
    /\ model st' = rest.
Proof.
  intros Hp Hd Hne Hm Hi. eexists. split; [|split; [|split; [|split; [|split]]]].
  - apply (index_run _ _ _ _ _ _ _ Hp Hd Hne Hm Hi).
  - cbn. rewrite lookup_insert_ne by discriminate. rewrite lookup_insert_ne by discriminate.
    apply lookup_insert_eq.
  - cbn. rewrite lookup_insert_ne by discriminate. apply lookup_insert_eq.
  - cbn. apply lookup_insert_eq.
  - intros k H1 H2 H3. cbn. rewrite !lookup_insert_ne by congruence. reflexivity.
  - reflexivity.
Qed.

Lemma followup_without_questions req st v :
  session st !! "followup_questions" = Some v -> Py.truthy v = false ->
  followup req st = (Ret (Redirect "index"), st).
Proof.
  intros Hs Ht. unfold followup. rewrite bind_run. cbn [get_session].
  rewrite Hs, Ht. reflexivity.
Qed.

Lemma followup_get req st v :
  session st !! "followup_questions" = Some v -> Py.truthy v = true ->
  method req = GET ->
  followup req st = (Ret (Render "followup.html" [("questions", v)]), st).
Proof.
  intros Hs Ht Hg. unfold followup. rewrite bind_run. cbn [get_session].
  rewrite Hs, Ht, Hg. reflexivity.
Qed.

Lemma truthy_questions qs : Py.truthy (PList (map PStr qs)) = negb (match qs with [] => true | _ => false end).
Proof. destruct qs; reflexivity. Qed.

(** X7: after a description was posted, the follow-up page shows the
    questions read off the model's answer; when that answer held no
    question it sends the user back to the start page instead. *)
Theorem index_then_followup (req req' : request) (st : state) (d text1 text2 : string)
    (rest : list (reply string)) (items : list pyval) :
  method req = POST ->
  form_get "description" (form req) = Some d -> d <> "" ->
  model st = Reply text1 :: Reply text2 :: rest ->
  Py.iter (decoded text1) = Ret items ->
  let st' := snd (index req st) in
  (questions_of text2 = [] -> followup req' st' = (Ret (Redirect "index"), st'))
  /\ (questions_of text2 <> [] -> method req' = GET ->
      followup req' st'
      = (Ret (Render "followup.html" [("questions", PList (map PStr (questions_of text2)))]),
         st')).
Proof.
  intros Hp Hd Hne Hm Hi st'.
  pose proof (index_run _ _ _ _ _ _ _ Hp Hd Hne Hm Hi) as Hrun.
  assert (Hq : session st' !! "followup_questions"
               = Some (PList (map PStr (questions_of text2)))).
  { unfold st'. rewrite Hrun. cbn.
    rewrite lookup_insert_ne by discriminate. apply lookup_insert_eq. }
  split.
  - intros He. apply (followup_without_questions _ _ _ Hq). rewrite He. reflexivity.
  - intros Hne' Hg. apply followup_get; [exact Hq | | exact Hg].
    destruct (questions_of text2); [congruence | reflexivity].
Qed.

(** X8: the diagnosis page needs both [predictions] and [user_answers]
    in the session; without either it redirects to the start page, makes
    no model call and leaves the state as it was. *)
Theorem final_diagnosis_page_guard (req : request) (st : state) :
  session st !! "predictions" = None \/ session st !! "user_answers" = None ->
  final_diagnosis_page req st = (Ret (Redirect "index"), st).
Proof.
  intros H. unfold final_diagnosis_page. rewrite bind_run. cbn [get_session].
  destruct H as [-> | H]; [reflexivity|]. rewrite H.
  destruct (session st !! "predictions"); reflexivity.
Qed.

Lemma treatment_plan_run d st r rest :
  model st = r :: rest ->
  treatment_plan d st
  = (Ret (match r with Reply t => PyStr.strip t | Fault _ => FALLBACK end),
     after_generate (TreatmentPlanPrompt d) r rest st).
Proof.
  intros Hm. unfold treatment_plan, try_except. rewrite bind_run.
  unfold generate. rewrite Hm. cbn [next]. destruct r; reflexivity.
Qed.

Lemma final_diagnosis_page_run req st p ua text r rest :
  session st !! "predictions" = Some p -> session st !! "user_answers" = Some ua ->
  model st = Reply text :: r :: rest ->
  let fd := PyStr.strip text in
  final_diagnosis_page req st
  = (Ret (Render "final_diagnosis.html"
            [("final_disease", PStr fd);
             ("treatment", PStr (match r with Reply t => PyStr.strip t | Fault _ => FALLBACK end));
             ("detection_mode", session_get (<["final_disease" := PStr fd]> (session st))
                                  "detection_mode" (PStr "Text Only"))]),
     with_session "final_disease" (PStr fd)
       (after_generate (TreatmentPlanPrompt fd) r rest
          (after_generate (PageDiagnosisPrompt p ua) (Reply text) (r :: rest) st))).
Proof.
  intros Hp Hu Hm fd. unfold final_diagnosis_page. rewrite bind_run. cbn [get_session].
  rewrite Hp, Hu. rewrite bind_run, (generate_reply _ _ _ _ Hm).
  rewrite bind_run, (treatment_plan_run _ _ r rest) by reflexivity.
  rewrite bind_run, session_set_run. rewrite bind_run. reflexivity.
Qed.

Lemma treatment_run req st r rest :
  model st = r :: rest ->
  treatment req st
  = (match r with
     | Reply t => Ret (Render "treatment.html"
                         [("final_disease", session_get (session st) "final_disease" (PStr "Unknown"));
                          ("treatment", PStr t)])
     | Fault msg => Raise (UpstreamError msg)
     end,
     after_generate
       (TreatmentPagePrompt (session_get (session st) "final_disease" (PStr "Unknown")))
       r rest st).
Proof.
  intros Hm. unfold treatment. rewrite bind_run. cbn [get_session].
  rewrite bind_run. unfold generate. rewrite Hm. cbn [next]. destruct r; reflexivity.
Qed.

(** X9: the diagnosis page stores the trimmed disease name in the
    session, and the treatment page visited next asks the model about that
    very name and shows it. *)
Theorem final_diagnosis_then_treatment (req req' : request) (st : state)
    (p ua : pyval) (text : string) (r r' : reply string) (rest : list (reply string)) :
  session st !! "predictions" = Some p -> session st !! "user_answers" = Some ua ->
  model st = Reply text :: r :: r' :: rest ->
  let st1 := snd (final_diagnosis_page req st) in
  let disease := PStr (PyStr.strip text) in
  session st1 !! "final_disease" = Some disease
  /\ treatment req' st1
     = (match r' with
        | Reply t => Ret (Render "treatment.html"
                            [("final_disease", disease); ("treatment", PStr t)])
        | Fault msg => Raise (UpstreamError msg)
        end,
        after_generate (TreatmentPagePrompt disease) r' rest st1).
Proof.
  intros Hp Hu Hm st1 disease.
  pose proof (final_diagnosis_page_run req st p ua text r (r' :: rest) Hp Hu Hm) as Hrun.
  cbv zeta in Hrun.
  assert (Hs : session st1 !! "final_disease" = Some disease).
  { unfold st1. rewrite Hrun. cbn. apply lookup_insert_eq. }
  split; [exact Hs|].
  assert (Hm1 : model st1 = r' :: rest) by (unfold st1; rewrite Hrun; reflexivity).
  rewrite (treatment_run req' st1 r' rest Hm1). unfold session_get. rewrite Hs. reflexivity.
Qed.

Lemma final_diagnosis_api_run req st kvs text r rest :
  body req = PDict kvs ->
  model st = Reply text :: r :: rest ->
  let p := match Py.dict_get "predictions" kvs with Some x => x | None => PList [] end in
  let ua := match Py.dict_get "user_answers" kvs with Some x => x | None => PDict [] end in
  let fd := PyStr.strip text in
  final_diagnosis_api req st
  = (Ret (Jsonify (PDict [("final_disease", PStr fd);
                          ("treatment", PStr (match r with
                                              | Reply t => PyStr.strip t
                                              | Fault _ => FALLBACK
                                              end))]) 200),
     after_generate (TreatmentPlanPrompt fd) r rest
       (after_generate (ApiDiagnosisPrompt p ua) (Reply text) (r :: rest) st)).
Proof.
  intros Hb Hm p ua fd. unfold final_diagnosis_api. rewrite Hb.
  rewrite bind_run, lift_run. cbn [Py.get].
  rewrite bind_run, lift_run.
  rewrite bind_run, (generate_reply _ _ _ _ Hm).
  rewrite bind_run, (treatment_plan_run _ _ r rest) by reflexivity. reflexivity.
Qed.

(** X10: given the same predictions and answers and the same replies
    of the model, the JSON endpoint and the diagnosis page give the same
    disease name and the same treatment text, or fail with the same
    exception. *)
Theorem final_diagnosis_api_page_agree (req_api req_page : request) (st_api st_page : state)
    (kvs : list (string * pyval)) (p ua : pyval) :
  body req_api = PDict kvs ->
  session st_page !! "predictions" = Some p ->
  session st_page !! "user_answers" = Some ua ->
  model st_api = model st_page ->
  diagnosis_of (fst (final_diagnosis_api req_api st_api))
  = diagnosis_of (fst (final_diagnosis_page req_page st_page)).
Proof.
  intros Hb Hp Hu Hm.
  unfold final_diagnosis_api, final_diagnosis_page, treatment_plan, try_except,
    generate, get_session, session_set, lift, mbind, M_bind, mret, M_ret.
  rewrite Hb, Hp, Hu, Hm. cbn [Py.get].
  destruct (model st_page) as [|[text|msg] [|[text'|msg'] rest]]; reflexivity.
Qed.

Section Strict.

Lemma strict_mret {A} (a : A) : strict (mret a).
Proof. intros st r st' [= <- <-]. exists []. rewrite app_nil_r. split; [reflexivity | intros ? ? []]. Qed.

Lemma strict_lift {A} (o : outcome A) : strict (lift o).
Proof. intros st r st' [= <- <-]. exists []. rewrite app_nil_r. split; [reflexivity | intros ? ? []]. Qed.

Lemma strict_bind {A B} (m : M A) (f : A -> M B) :
  strict m -> (forall a, strict (f a)) -> strict (m ≫= f).
Proof.
  intros Hm Hf st r st' H. rewrite bind_run in H.
  destruct (m st) as [[a|e] st1] eqn:E.
  - destruct (Hm _ _ _ E) as (ev1 & E1 & H1).
    destruct (Hf a _ _ _ H) as (ev2 & E2 & H2).
    exists (ev1 ++ ev2). rewrite E2, E1, app_assoc. split; [reflexivity|].
    intros c msg Hin. apply List.in_app_or in Hin as [Hin | Hin].
    + discriminate (H1 _ _ Hin).
    + exact (H2 _ _ Hin).
  - injection H as <- <-. destruct (Hm _ _ _ E) as (ev1 & E1 & H1).
    exists ev1. split; [exact E1|]. intros c msg Hin.
    specialize (H1 _ _ Hin). injection H1 as ->. reflexivity.
Qed.

Lemma strict_fetch c : strict (fetch c).
Proof.
  intros st r st' H. unfold fetch in H.
  destruct (next (maps st)) as [r0 rest]. injection H as <- <-.
  exists [Fetched c r0]. split; [reflexivity|].
  intros c' msg [[= -> ->] | []]. reflexivity.
Qed.

Lemma strict_for_each {A B} (l : list A) (body : B -> A -> M B) :
  (forall acc x, strict (body acc x)) -> forall acc, strict (for_each l acc body).
Proof.
  intros Hb. induction l as [|x r IH]; intros acc; simpl.
  - apply strict_mret.
  - apply strict_bind; [apply Hb | intros a; apply IH].
Qed.

End Strict.

Lemma strict_search_and_sort lat lng radius : strict (search_and_sort lat lng radius).
Proof.
  unfold search_and_sort.
  apply strict_bind; [|intros; apply strict_bind; [apply strict_lift | intros; apply strict_mret]].
  apply strict_for_each. intros acc [category keyword]. unfold search_category.
  apply strict_bind; [apply strict_fetch|]. intros places_data.
  apply strict_bind; [apply strict_lift|]. intros results.
  apply strict_bind; [apply strict_lift|]. intros places.
  apply strict_for_each. intros clinics place. unfold clinic_of.
  apply strict_bind; [|intros; apply strict_mret].
  apply strict_bind; [apply strict_lift|]. intros place_id.
  apply strict_bind; [apply strict_fetch|]. intros details.
  repeat (apply strict_bind; [apply strict_lift|]; intros ?).
  apply strict_mret.
Qed.

Lemma strict_find_clinics req : strict (find_clinics req).
Proof.
  unfold find_clinics.
  repeat (apply strict_bind; [apply strict_lift|]; intros ?).
  destruct a; try (repeat (apply strict_bind; [apply strict_lift|]; intros ?);
                   apply strict_search_and_sort).
  apply strict_bind; [apply strict_fetch|]. intros geocode_data.
  apply strict_bind; [apply strict_lift|]. intros status.
  destruct (negb (Py.eq_str status "OK")); [apply strict_mret|].
  repeat (apply strict_bind; [apply strict_lift|]; intros ?).
  apply strict_search_and_sort.
Qed.

(** X12: there is no isolation of failures in the clinic search: when
    any maps call of a request fails (geocoding, a nearby search, the
    details of one place), the whole request fails with that failure. *)
Theorem find_clinics_failure_propagates (req : request) (st st' : state)
    (res : outcome response) (c : maps_call) (msg : string) :
  trace st = [] ->
  find_clinics req st = (res, st') ->
  In (Fetched c (Fault msg)) (trace st') ->
  res = Raise (UpstreamError msg).
Proof.
  intros Ht H Hin. destruct (strict_find_clinics req _ _ _ H) as (evs & E & Hf).
  rewrite E, Ht in Hin. exact (Hf _ _ Hin).
Qed.

Lemma emits_for_each_in {A B} P (l : list A) (body : B -> A -> M B) :
  (forall acc x, In x l -> emits P (body acc x)) -> forall acc, emits P (for_each l acc body).
Proof.
  induction l as [|x r IH]; intros Hb acc; simpl.
  - apply emits_mret.
  - apply emits_bind; [apply Hb; left; reflexivity|].
    intros a. apply IH. intros acc' y Hy. apply Hb. right. exact Hy.
Qed.

Lemma emits_searches lat lng radius :
  emits (searches_with lat lng radius) (search_and_sort lat lng radius).
Proof.
  unfold search_and_sort.
  apply emits_bind; [|intros; apply emits_bind; [apply emits_lift | intros; apply emits_mret]].
  apply emits_for_each_in. intros acc [category keyword] Hin. unfold search_category.
  apply emits_bind.
  { apply emits_fetch. intros r. simpl. repeat split.
    unfold keywords. apply (List.in_map snd _ _ Hin). }
  intros places_data.
  apply emits_bind; [apply emits_lift|]. intros results.
  apply emits_bind; [apply emits_lift|]. intros places.
  apply emits_for_each. intros clinics place. unfold clinic_of.
  apply emits_bind; [|intros; apply emits_mret].
  apply emits_bind; [apply emits_lift|]. intros place_id.
  apply emits_bind; [apply emits_fetch; intros; exact I|]. intros details.
  repeat (apply emits_bind; [apply emits_lift|]; intros ?).
  apply emits_mret.
Qed.

(** X13: when [location] is not a string it is used as it is: no
    geocoding call is made, and every nearby search is made with its
    [lat] and [lng] (null when missing), the radius [range * 1000]
    ([20 * 1000] by default) and one of the three keywords. *)
Theorem find_clinics_uses_given_coordinates (req : request) (st st' : state)
    (res : outcome response) (loc : pyval) (e : event) :
  trace st = [] ->
  Py.get (body req) "location" PNone = Ret loc ->
  Py.is_str loc = false ->
  find_clinics req st = (res, st') ->
  In e (trace st') ->
  exists range_km radius lat lng,
    Py.get (body req) "range" (PInt 20) = Ret range_km
    /\ Py.mul range_km 1000 = Ret radius
    /\ Py.get loc "lat" PNone = Ret lat
    /\ Py.get loc "lng" PNone = Ret lng
    /\ searches_with lat lng radius e.
Proof.
  intros Ht Hloc Hstr H Hin.
  unfold find_clinics in H. rewrite bind_run, lift_run, Hloc in H.
  rewrite bind_run, lift_run in H.
  destruct (Py.get (body req) "range" (PInt 20)) as [range_km|x] eqn:Hr;
    [|injection H as <- <-; rewrite Ht in Hin; destruct Hin].
  rewrite bind_run, lift_run in H.
  destruct (Py.mul range_km 1000) as [radius|x] eqn:Hm;
    [|injection H as <- <-; rewrite Ht in Hin; destruct Hin].
  assert (H' : (lat ← lift (Py.get loc "lat" PNone);
                lng ← lift (Py.get loc "lng" PNone);
                search_and_sort lat lng radius) st = (res, st'))
    by (destruct loc; try exact H; discriminate Hstr).
  clear H. rewrite bind_run, lift_run in H'.
  destruct (Py.get loc "lat" PNone) as [lat|x] eqn:Hlat;
    [|injection H' as <- <-; rewrite Ht in Hin; destruct Hin].
  rewrite bind_run, lift_run in H'.
  destruct (Py.get loc "lng" PNone) as [lng|x] eqn:Hlng;
    [|injection H' as <- <-; rewrite Ht in Hin; destruct Hin].
  destruct (emits_searches _ _ _ _ _ _ H') as (evs & E & Hall).
  rewrite E, Ht in Hin. simpl in Hin. rewrite List.Forall_forall in Hall.
  exists range_km, radius, lat, lng. repeat split; try assumption; try reflexivity.
  exact (Hall _ Hin).
Qed.

(** X14: when [location] is a string, the first outside call geocodes
    it, and any call after that is made only for a reply with status
    [OK], with the coordinates of its first result and the radius
    [range * 1000]. *)
Theorem find_clinics_uses_geocoded_coordinates (req : request) (st st' : state)
    (res : outcome response) (address : string) :
  trace st = [] ->
  Py.get (body req) "location" PNone = Ret (PStr address) ->
  find_clinics req st = (res, st') ->
  trace st' = []
  \/ exists r evs,
       trace st' = Fetched (Geocode address) r :: evs
       /\ (evs <> [] ->
           exists g range_km radius lat lng,
             r = Reply g
             /\ Py.get g "status" PNone = Ret (PStr "OK")
             /\ geocoded g = Ret (lat, lng)
             /\ Py.get (body req) "range" (PInt 20) = Ret range_km
             /\ Py.mul range_km 1000 = Ret radius
             /\ Forall (searches_with lat lng radius) evs).
Proof.
  intros Ht Hloc H.
  unfold find_clinics in H. rewrite bind_run, lift_run, Hloc in H.
  rewrite bind_run, lift_run in H.
  destruct (Py.get (body req) "range" (PInt 20)) as [range_km|x] eqn:Hr;
    [|injection H as <- <-; left; exact Ht].
  rewrite bind_run, lift_run in H.
  destruct (Py.mul range_km 1000) as [radius|x] eqn:Hm;
    [|injection H as <- <-; left; exact Ht].
  right. rewrite bind_run in H. unfold fetch at 1 in H.
  destruct (next (maps st)) as [r rest].
  set (st1 := mkState _ _ _ _) in H.
  assert (Ht1 : trace st1 = [Fetched (Geocode address) r])
    by (unfold st1; cbn [trace]; rewrite Ht; reflexivity).
  destruct r as [g|msg]; cbn [answer] in H;
    [|injection H as <- <-; exists (Fault msg), []; split; [exact Ht1 | congruence]].
  exists (Reply g).
  rewrite bind_run, lift_run in H.
  destruct (Py.get g "status" PNone) as [status|x] eqn:Hs;
    [|injection H as <- <-; exists []; split; [exact Ht1 | congruence]].
  destruct (negb (Py.eq_str status "OK")) eqn:Hok;
    [injection H as <- <-; exists []; split; [exact Ht1 | congruence]|].
  apply negb_false_iff, eq_str_true in Hok. subst status.
  rewrite bind_run, lift_run in H.
  destruct (Py.getitem g "results") as [results|x] eqn:G1;
    [|injection H as <- <-; exists []; split; [exact Ht1 | congruence]].
  rewrite bind_run, lift_run in H.
  destruct (Py.getitem0 results) as [first|x] eqn:G2;
    [|injection H as <- <-; exists []; split; [exact Ht1 | congruence]].
  rewrite bind_run, lift_run in H.
  destruct (Py.getitem first "geometry") as [geometry|x] eqn:G3;
    [|injection H as <- <-; exists []; split; [exact Ht1 | congruence]].
  rewrite bind_run, lift_run in H.
  destruct (Py.getitem geometry "location") as [location|x] eqn:G4;
    [|injection H as <- <-; exists []; split; [exact Ht1 | congruence]].
  rewrite bind_run, lift_run in H.
  destruct (Py.getitem location "lat") as [lat|x] eqn:G5;
    [|injection H as <- <-; exists []; split; [exact Ht1 | congruence]].
  rewrite bind_run, lift_run in H.
  destruct (Py.getitem location "lng") as [lng|x] eqn:G6;
    [|injection H as <- <-; exists []; split; [exact Ht1 | congruence]].
  destruct (emits_searches _ _ _ _ _ _ H) as (evs & E & Hall).
  exists evs. split; [rewrite E, Ht1; reflexivity|].
  intros _. exists g, range_km, radius, lat, lng.
  split; [reflexivity|]. split; [first [exact Hs | reflexivity]|]. split.
  { unfold geocoded.
    rewrite ?G1, ?G2, ?G3, ?G4, ?G5, ?G6. reflexivity. }
  split; [first [exact Hr | reflexivity]|].
  split; [first [exact Hm | reflexivity] | exact Hall].
Qed.

(** X15: a geocoding reply with status [OK] but without usable
    coordinates (no [results], an empty list, a missing field) fails the
    request with the lookup error, after the geocoding call only. *)
Theorem find_clinics_geocode_without_coordinates (req : request) (st : state)
    (address : string) (range_km radius g : pyval) (rest : list (reply pyval)) (e : exn) :
  Py.get (body req) "location" PNone = Ret (PStr address) ->
  Py.get (body req) "range" (PInt 20) = Ret range_km ->
  Py.mul range_km 1000 = Ret radius ->
  maps st = Reply g :: rest ->
  Py.get g "status" PNone = Ret (PStr "OK") ->
  geocoded g = Raise e ->
  find_clinics req st
  = (Raise e, mkState (session st) (model st) rest
                (trace st ++ [Fetched (Geocode address) (Reply g)])).
Proof.
  intros Hloc Hr Hm Hmaps Hs Hg.
  unfold find_clinics. rewrite bind_run, lift_run, Hloc.
  rewrite bind_run, lift_run, Hr. rewrite bind_run, lift_run, Hm.
  rewrite bind_run. unfold fetch at 1. rewrite Hmaps. cbn [next answer].
  rewrite bind_run, lift_run, Hs. cbn [Py.eq_str negb String.eqb Ascii.eqb Bool.eqb].
  unfold geocoded in Hg.
  rewrite bind_run, lift_run.
  destruct (Py.getitem g "results") as [results|x]; [|injection Hg as ->; reflexivity].
  rewrite bind_run, lift_run.
  destruct (Py.getitem0 results) as [first|x]; [|injection Hg as ->; reflexivity].
  rewrite bind_run, lift_run.
  destruct (Py.getitem first "geometry") as [geometry|x]; [|injection Hg as ->; reflexivity].
  rewrite bind_run, lift_run.
  destruct (Py.getitem geometry "location") as [location|x]; [|injection Hg as ->; reflexivity].
  rewrite bind_run, lift_run.
  destruct (Py.getitem location "lat") as [lat|x]; [|injection Hg as ->; reflexivity].
  rewrite bind_run, lift_run.
  destruct (Py.getitem location "lng") as [lng|x]; [|injection Hg as ->; reflexivity].
  discriminate Hg.
Qed.

Lemma lift_ret_inv {A} (o : outcome A) st a st' :
  lift o st = (Ret a, st') -> o = Ret a /\ st' = st.
Proof. unfold lift. intros [= -> ->]. split; reflexivity. Qed.

Lemma fetch_ret_inv c st v st' :
  fetch c st = (Ret v, st') -> trace st' = trace st ++ [Fetched c (Reply v)].
Proof.
  unfold fetch. destruct (next (maps st)) as [[w|msg] rest]; cbn [answer]; [|discriminate].
  intros [= <- <-]. reflexivity.
Qed.

Lemma clinic_of_ret c place st clinic st' :
  clinic_of c place st = (Ret clinic, st') ->
  exists id r, trace st' = trace st ++ [Fetched (PlaceDetails id) r] /\ clinic_record c id clinic.
Proof.
  unfold clinic_of. intros H.
  apply bind_ret_inv in H as (id & s1 & H1 & H). apply lift_ret_inv in H1 as [H1 ->].
  apply bind_ret_inv in H as (det & s2 & H2 & H). apply fetch_ret_inv in H2.
  apply bind_ret_inv in H as (data & s3 & Hl & H); apply lift_ret_inv in Hl as [_ ->].
  apply bind_ret_inv in H as (name & s3 & Hl & H); apply lift_ret_inv in Hl as [_ ->].
  apply bind_ret_inv in H as (id' & s3 & Hl & H); apply lift_ret_inv in Hl as [Hid ->].
  apply bind_ret_inv in H as (address & s3 & Hl & H); apply lift_ret_inv in Hl as [_ ->].
  apply bind_ret_inv in H as (phone & s3 & Hl & H); apply lift_ret_inv in Hl as [_ ->].
  apply bind_ret_inv in H as (website & s3 & Hl & H); apply lift_ret_inv in Hl as [_ ->].
  apply bind_ret_inv in H as (rating & s3 & Hl & H); apply lift_ret_inv in Hl as [_ ->].
  apply bind_ret_inv in H as (geometry & s3 & Hl & H); apply lift_ret_inv in Hl as [_ ->].
  apply bind_ret_inv in H as (location & s3 & Hl & H); apply lift_ret_inv in Hl as [_ ->].
  apply bind_ret_inv in H as (opening & s3 & Hl & H); apply lift_ret_inv in Hl as [_ ->].
  apply bind_ret_inv in H as (hours & s3 & Hl & H); apply lift_ret_inv in Hl as [_ ->].
  injection H as <- <-.
  exists id, (Reply det). split; [exact H2|].
  assert (id' = id) as -> by congruence.
  unfold clinic_record. eauto 10.
Qed.

Lemma places_loop c places : forall clinics st cs st',
  for_each places clinics
    (fun clinics place => clinic ← clinic_of c place; mret (clinics ++ [clinic])) st
  = (Ret cs, st') ->
  exists news evs, cs = clinics ++ news /\ trace st' = trace st ++ evs /\ built c news evs.
Proof.
  induction places as [|place r IH]; intros clinics st cs st' H; simpl in H.
  - injection H as <- <-. exists [], []. rewrite !app_nil_r. repeat split. constructor.
  - apply bind_ret_inv in H as (acc & s1 & H1 & H).
    apply bind_ret_inv in H1 as (clinic & s2 & Hc & H1). injection H1 as <- <-.
    apply clinic_of_ret in Hc as (id & rp & Ht & Hrec).
    apply IH in H as (news & evs & -> & Ht' & Hb).
    exists (clinic :: news), (Fetched (PlaceDetails id) rp :: evs).
    rewrite <- app_assoc. split; [reflexivity|]. split.
    + rewrite Ht', Ht, <- app_assoc. reflexivity.
    + constructor; [eauto | exact Hb].
Qed.

Lemma search_category_ret lat lng radius clinics c kw st cs st' :
  search_category lat lng radius clinics (c, kw) st = (Ret cs, st') ->
  exists news evs r,
    cs = clinics ++ news
    /\ trace st' = trace st ++ Fetched (NearbySearch lat lng radius kw) r :: evs
    /\ built c news evs.
Proof.
  unfold search_category. intros H.
  apply bind_ret_inv in H as (data & s1 & H1 & H). apply fetch_ret_inv in H1.
  apply bind_ret_inv in H as (results & s2 & Hl & H). apply lift_ret_inv in Hl as [_ ->].
  apply bind_ret_inv in H as (places & s3 & Hl & H). apply lift_ret_inv in Hl as [_ ->].
  apply places_loop in H as (news & evs & -> & Ht & Hb).
  exists news, evs, (Reply data). split; [reflexivity|]. split; [|exact Hb].
  rewrite Ht, H1, <- app_assoc. reflexivity.
Qed.

Lemma built_detail_ids c news evs :
  built c news evs ->
  detail_ids evs = map clinic_place_id news /\ nearby_keywords evs = [].
Proof.
  induction 1 as [|cl e news evs (id & r & -> & Hrec) _ [IH1 IH2]]; [split; reflexivity|].
  destruct Hrec as (? & ? & ? & ? & ? & ? & ? & ->).
  simpl. rewrite IH1. split; [reflexivity | exact IH2].
Qed.

Lemma built_is_clinic c news evs :
  In c sorted_order -> built c news evs ->
  Forall (fun cl => is_clinic cl /\ category cl = PStr c) news.
Proof.
  intros Hc. induction 1 as [|cl e news evs (id & r & -> & Hrec) _ IH]; constructor; [|exact IH].
  destruct Hrec as (? & ? & ? & ? & ? & ? & ? & ->). split; [|reflexivity].
  eexists _, c. split; [reflexivity|]. split; [reflexivity|]. split; [reflexivity | exact Hc].
Qed.

Lemma stable_sort_sorted_id l : StronglySorted key_le l -> stable_sort l = l.
Proof.
  induction 1 as [|a l Hl IH Ha]; [reflexivity|].
  simpl. rewrite IH. destruct l as [|b r]; [reflexivity|].
  simpl. inversion Ha as [|? ? Hab _]; subst. unfold key_le in Hab.
  apply Nat.leb_le in Hab. rewrite Hab. reflexivity.
Qed.

Lemma keyed_of_category k l :
  Forall (fun cl => sort_key cl = Ret k) l -> keyed l = Ret (map (fun cl => (k, cl)) l).
Proof.
  induction 1 as [|cl l Hcl _ IH]; [reflexivity|].
  simpl. rewrite Hcl, IH. reflexivity.
Qed.

Lemma keyed_app l1 l2 k1 k2 :
  keyed l1 = Ret k1 -> keyed l2 = Ret k2 -> keyed (l1 ++ l2) = Ret (k1 ++ k2).
Proof.
  revert k1. induction l1 as [|x r IH]; intros k1 H1 H2; simpl in *.
  - injection H1 as <-. exact H2.
  - destruct (sort_key x); [|discriminate]. destruct (keyed r) as [kr|]; [|discriminate].
    injection H1 as <-. rewrite (IH kr eq_refl H2). reflexivity.
Qed.

Lemma sort_key_of_category cl c :
  category cl = PStr c -> sort_key cl = Ret (rank (PStr c)).
Proof.
  unfold category, sort_key. destruct (Py.getitem cl "category"); [|discriminate].
  intros ->. reflexivity.
Qed.

(** Records gathered category by category, in the order of the
    priorities, are left as they are by the sort. *)
Lemma sort_clinics_in_order g0 g1 g2 :
  Forall (fun cl => category cl = PStr "NGO") g0 ->
  Forall (fun cl => category cl = PStr "Government") g1 ->
  Forall (fun cl => category cl = PStr "Private") g2 ->
  sort_clinics (g0 ++ g1 ++ g2) = Ret (g0 ++ g1 ++ g2).
Proof.
  intros H0 H1 H2. unfold sort_clinics.
  assert (K0 : keyed g0 = Ret (map (fun cl => (0%nat, cl)) g0)).
  { apply keyed_of_category. eapply List.Forall_impl; [|exact H0].
    intros cl Hc. apply (sort_key_of_category _ _ Hc). }
  assert (K1 : keyed g1 = Ret (map (fun cl => (1%nat, cl)) g1)).
  { apply keyed_of_category. eapply List.Forall_impl; [|exact H1].
    intros cl Hc. apply (sort_key_of_category _ _ Hc). }
  assert (K2 : keyed g2 = Ret (map (fun cl => (2%nat, cl)) g2)).
  { apply keyed_of_category. eapply List.Forall_impl; [|exact H2].
    intros cl Hc. apply (sort_key_of_category _ _ Hc). }
  rewrite (keyed_app _ _ _ _ K0 (keyed_app _ _ _ _ K1 K2)).
  rewrite stable_sort_sorted_id.
  - rewrite !map_app, !map_map. simpl. rewrite !map_id. reflexivity.
  - clear. induction g0 as [|a r IH]; simpl.
    + induction g1 as [|a r IH]; simpl.
      * induction g2 as [|a r IH]; simpl; constructor; [exact IH|].
        apply List.Forall_forall. intros [k x] Hin.
        apply List.in_map_iff in Hin as (? & [= <- <-] & _). unfold key_le. simpl. lia.
      * constructor; [exact IH|]. apply List.Forall_forall. intros [k x] Hin.
        apply List.in_app_or in Hin as [Hin|Hin];
          apply List.in_map_iff in Hin as (? & [= <- <-] & _); unfold key_le; simpl; lia.
    + constructor; [exact IH|]. apply List.Forall_forall. intros [k x] Hin.
      apply List.in_app_or in Hin as [Hin|Hin];
        [|apply List.in_app_or in Hin as [Hin|Hin]];
        apply List.in_map_iff in Hin as (? & [= <- <-] & _); unfold key_le; simpl; lia.
Qed.

Lemma detail_ids_app a b : detail_ids (a ++ b) = detail_ids a ++ detail_ids b.
Proof. apply flat_map_app. Qed.

Lemma nearby_keywords_app a b : nearby_keywords (a ++ b) = nearby_keywords a ++ nearby_keywords b.
Proof. apply flat_map_app. Qed.

Lemma detail_ids_nearby lat lng radius kw r l :
  detail_ids (Fetched (NearbySearch lat lng radius kw) r :: l) = detail_ids l.
Proof. reflexivity. Qed.

Lemma nearby_keywords_nearby lat lng radius kw r l :
  nearby_keywords (Fetched (NearbySearch lat lng radius kw) r :: l) = kw :: nearby_keywords l.
Proof. reflexivity. Qed.

Lemma search_and_sort_ret_full lat lng radius st r st' :
  search_and_sort lat lng radius st = (Ret r, st') ->
  exists cs evs,
    r = Jsonify (PDict [("clinics", PList cs)]) 200
    /\ trace st' = trace st ++ evs
    /\ map clinic_place_id cs = detail_ids evs
    /\ nearby_keywords evs = keywords
    /\ Forall is_clinic cs.
Proof.
  unfold search_and_sort. intros H.
  apply bind_ret_inv in H as (clinics & s1 & Hloop & H).
  apply bind_ret_inv in H as (sorted & s2 & Hs & H).
  apply lift_ret_inv in Hs as [Hs ->]. injection H as <- <-.
  unfold categories in Hloop. cbn [for_each] in Hloop.
  apply bind_ret_inv in Hloop as (c0 & t0 & H0 & Hloop).
  apply bind_ret_inv in Hloop as (c1 & t1 & H1 & Hloop).
  apply bind_ret_inv in Hloop as (c2 & t2 & H2 & Hloop).
  injection Hloop as <- <-.
  apply search_category_ret in H0 as (g0 & e0 & r0 & -> & T0 & B0).
  apply search_category_ret in H1 as (g1 & e1 & r1 & -> & T1 & B1).
  apply search_category_ret in H2 as (g2 & e2 & r2 & -> & T2 & B2).
  simpl in Hs.
  pose proof (built_is_clinic "NGO" _ _ ltac:(simpl; auto) B0) as C0.
  pose proof (built_is_clinic "Government" _ _ ltac:(simpl; auto) B1) as C1.
  pose proof (built_is_clinic "Private" _ _ ltac:(simpl; auto) B2) as C2.
  rewrite <- app_assoc in Hs.
  rewrite sort_clinics_in_order in Hs;
    [| eapply List.Forall_impl; [|exact C0]; intros ? [_ ?]; assumption
     | eapply List.Forall_impl; [|exact C1]; intros ? [_ ?]; assumption
     | eapply List.Forall_impl; [|exact C2]; intros ? [_ ?]; assumption].
  injection Hs as <-.
  destruct (built_detail_ids _ _ _ B0) as [D0 N0].
  destruct (built_detail_ids _ _ _ B1) as [D1 N1].
  destruct (built_detail_ids _ _ _ B2) as [D2 N2].
  eexists _, _. split; [reflexivity|]. split.
  { rewrite T2, T1, T0, <- !app_assoc. reflexivity. }
  split; [|split].
  - rewrite !map_app, !detail_ids_app, !detail_ids_nearby, D0, D1, D2. reflexivity.
  - rewrite !nearby_keywords_app, !nearby_keywords_nearby, N0, N1, N2. reflexivity.
  - rewrite !Forall_app. repeat split;
      (eapply List.Forall_impl; [|eassumption]; intros ? [? _]; assumption).
Qed.

(** X16: a successful clinic search makes the three nearby searches
    with the three keywords in their fixed order, and lists one record for
    every details call, in the order of the calls and with the place id
    asked for: no place is dropped or merged, and one found under two
    keywords is listed twice.  Each record has the nine fields and one of
    the three categories. *)
Theorem find_clinics_lists_every_place (req : request) (st st' : state) (payload : pyval) :
  trace st = [] ->
  find_clinics req st = (Ret (Jsonify payload 200), st') ->
  exists cs,
    payload = PDict [("clinics", PList cs)]
    /\ map clinic_place_id cs = detail_ids (trace st')
    /\ nearby_keywords (trace st') = keywords
    /\ Forall is_clinic cs.
Proof.
  intros Ht H. unfold find_clinics in H. exec H.
  all: try discriminate H.
  all: apply search_and_sort_ret_full in H as (cs & evs & [= ->] & E & Hd & Hn & Hc);
    exists cs; (split; [reflexivity|]); rewrite E; cbn [trace]; rewrite Ht;
    rewrite ?detail_ids_app, ?nearby_keywords_app; simpl; auto.
Qed.

Lemma filter_insert_keyed k a l :
  List.filter (fun b => (fst b =? k)%nat) (insert_keyed a l)
  = List.filter (fun b => (fst b =? k)%nat) (a :: l).
Proof.
  induction l as [|b r IH]; [reflexivity|].
  simpl. destruct (fst a <=? fst b)%nat eqn:E; [reflexivity|].
  simpl. rewrite IH. simpl.
  destruct (fst a =? k)%nat eqn:Ea; [|reflexivity].
  destruct (fst b =? k)%nat eqn:Eb; [|reflexivity].
  apply Nat.eqb_eq in Ea, Eb. apply Nat.leb_gt in E. lia.
Qed.

Lemma filter_stable_sort k l :
  List.filter (fun b => (fst b =? k)%nat) (stable_sort l)
  = List.filter (fun b => (fst b =? k)%nat) l.
Proof.
  induction l as [|a r IH]; [reflexivity|].
  simpl. rewrite filter_insert_keyed. simpl. rewrite IH. reflexivity.
Qed.

Lemma of_rank_keyed k kl :
  List.Forall (fun a => fst a = rank (category (snd a))) kl ->
  of_rank k (map snd kl) = map snd (List.filter (fun b => (fst b =? k)%nat) kl).
Proof.
  induction 1 as [|a l Ha _ IH]; [reflexivity|].
  unfold of_rank in *. simpl. rewrite <- Ha, IH.
  destruct (fst a =? k)%nat; reflexivity.
Qed.

(** X17: the sort is stable: clinics of one priority keep the order
    they had. *)
Theorem sort_clinics_stable (cs cs' : list pyval) (k : nat) :
  sort_clinics cs = Ret cs' -> of_rank k cs' = of_rank k cs.
Proof.
  unfold sort_clinics. destruct (keyed cs) as [kl|] eqn:Ek; [|discriminate].
  intros [= <-]. destruct (keyed_spec _ _ Ek) as [Hm Hf].
  rewrite <- Hm.
  rewrite (of_rank_keyed _ _ Hf).
  rewrite of_rank_keyed.
  - rewrite filter_stable_sort. reflexivity.
  - eapply Permutation_Forall; [apply stable_sort_perm | exact Hf].
Qed.

Lemma sort_key_raises x e : sort_key x = Raise e -> e = KeyError \/ e = TypeError.
Proof.
  unfold sort_key, Py.getitem. destruct x; try (intros [= <-]; auto).
  destruct (Py.dict_get "category" kvs); [discriminate | intros [= <-]; auto].
Qed.

(** X18: a record without a [category] makes the sort fail, with
    [KeyError] or [TypeError], whatever the other records. *)
Theorem sort_clinics_needs_category (cs : list pyval) (x : pyval) :
  In x cs -> (forall c, Py.getitem x "category" <> Ret c) ->
  exists e, sort_clinics cs = Raise e /\ (e = KeyError \/ e = TypeError).
Proof.
  intros Hin Hx. unfold sort_clinics.
  assert (Hk : exists e, keyed cs = Raise e /\ (e = KeyError \/ e = TypeError)).
  { induction cs as [|y r IH]; [destruct Hin|]. simpl.
    destruct (sort_key y) as [k|e] eqn:Ey.
    - destruct Hin as [-> | Hin].
      + unfold sort_key in Ey. destruct (Py.getitem x "category") as [c|] eqn:E;
          [destruct (Hx c); reflexivity | discriminate].
      + destruct (IH Hin) as (e & -> & He). eauto.
    - exists e. split; [reflexivity | apply (sort_key_raises _ _ Ey)]. }
  destruct Hk as (e & -> & He). eauto.
Qed.

Lemma split_nl_no_newline s : Forall (fun q => has_newline q = false) (PyStr.split_nl s).
Proof.
  induction s as [|c r IH]; simpl; [repeat constructor|].
  destruct (Ascii.eqb c PyStr.newline) eqn:E.
  - constructor; [reflexivity | exact IH].
  - destruct (PyStr.split_nl r) as [|l ls]; [repeat constructor; simpl; rewrite E; reflexivity|].
    inversion IH as [|? ? Hl Hls]; subst. constructor; [|exact Hls].
    simpl. rewrite E, Hl. reflexivity.
Qed.

(** X19: every follow-up question is a single line, and a reply of
    white space only gives no question. *)
Theorem followup_questions_single_lines (predictions : pyval) (st : state) (text : string)
    (rest : list (reply string)) :
  model st = Reply text :: rest ->
  exists qs,
    fst (generate_followup_questions predictions st) = Ret qs
    /\ Forall (fun q => has_newline q = false) qs
    /\ (PyStr.whitespace_only text = true -> qs = []).
Proof.
  intros Hm. exists (questions_of text). split; [|split].
  - rewrite (followup_questions_run _ _ _ _ Hm). reflexivity.
  - unfold questions_of. apply List.Forall_forall. intros q Hq.
    apply List.filter_In in Hq as [Hq _].
    pose proof (split_nl_no_newline (PyStr.strip text)) as Hall.
    rewrite List.Forall_forall in Hall. exact (Hall _ Hq).
  - intros Hw. unfold questions_of.
    rewrite (PyStrFacts.strip_whitespace_only _ Hw). reflexivity.
Qed.

Lemma followup_post_run req st qs :
  method req = POST ->
  session st !! "followup_questions" = Some (PList (map PStr qs)) ->
  qs <> [] ->
  exists ua,
    followup req st
    = (Ret (Redirect "final_diagnosis_page"), with_session "user_answers" (PDict ua) st)
    /\ (forall q, In q (Py.keys ua) <-> In q qs)
    /\ (forall q, In q qs -> Py.dict_get q ua = Some (PStr (answer_for (form req) q))).
Proof.
  intros Hpost Hs Hne.
  destruct (collect_answers_spec (form req) qs [] (List.NoDup_nil _))
    as (ua & Hrun & _ & Hkeys & Hin & _).
  exists ua. split; [|split].
  - assert (Ht : Py.truthy (PList (map PStr qs)) = true)
      by (destruct qs; [congruence | reflexivity]).
    unfold followup. rewrite bind_run. cbn [get_session]. rewrite Hs, Ht, Hpost.
    cbn [negb]. rewrite bind_run, lift_run. cbn [Py.iter].
    rewrite bind_run, lift_run, Hrun. reflexivity.
  - intros q. rewrite Hkeys. simpl. tauto.
  - exact Hin.
Qed.

(** X11: the three steps of the page flow in a row.  A description is
    posted, the answers to the questions are posted, the diagnosis page is
    opened: four model calls are made in all; the diagnosis prompt carries
    the predictions of the first step and the answers of the second, keyed
    by the questions; the page shows the trimmed disease name, the
    treatment (or the fallback) and the detection mode [Text Only]. *)
Theorem page_flow_end_to_end (req1 req2 req3 : request) (st : state)
    (d text1 text2 text3 : string) (r4 : reply string) (rest : list (reply string))
    (items : list pyval) :
  method req1 = POST ->
  form_get "description" (form req1) = Some d -> d <> "" ->
  model st = Reply text1 :: Reply text2 :: Reply text3 :: r4 :: rest ->
  Py.iter (decoded text1) = Ret items ->
  questions_of text2 <> [] ->
  method req2 = POST ->
  let st1 := snd (index req1 st) in
  let st2 := snd (followup req2 st1) in
  let st3 := snd (final_diagnosis_page req3 st2) in
  exists ua,
    fst (index req1 st) = Ret (Redirect "followup")
    /\ fst (followup req2 st1) = Ret (Redirect "final_diagnosis_page")
    /\ fst (final_diagnosis_page req3 st2)
       = Ret (Render "final_diagnosis.html"
                [("final_disease", PStr (PyStr.strip text3));
                 ("treatment", PStr (match r4 with
                                     | Reply t => PyStr.strip t
                                     | Fault _ => FALLBACK
                                     end));
                 ("detection_mode", PStr "Text Only")])
    /\ trace st3
       = trace st ++
         [Generated (PredictPrompt d) (Reply text1);
          Generated (FollowupPrompt (PList items)) (Reply text2);
          Generated (PageDiagnosisPrompt (PList items) (PDict ua)) (Reply text3);
          Generated (TreatmentPlanPrompt (PyStr.strip text3)) r4]
    /\ (forall q, In q (Py.keys ua) <-> In q (questions_of text2))
    /\ (forall q, In q (questions_of text2) ->
        Py.dict_get q ua = Some (PStr (answer_for (form req2) q)))
    /\ model st3 = rest.
Proof.
  intros Hp Hd Hne Hm Hi Hq Hp2 st1 st2 st3.
  pose proof (index_run _ _ _ _ _ _ _ Hp Hd Hne Hm Hi) as H1.
  assert (Hs1 : session st1 !! "followup_questions"
                = Some (PList (map PStr (questions_of text2)))).
  { unfold st1. rewrite H1. cbn.
    rewrite lookup_insert_ne by discriminate. apply lookup_insert_eq. }
  destruct (followup_post_run req2 st1 _ Hp2 Hs1 Hq) as (ua & H2 & Hkeys & Hget).
  exists ua.
  assert (E2 : st2 = with_session "user_answers" (PDict ua) st1)
    by (unfold st2; rewrite H2; reflexivity).
  assert (Hpred : session st2 !! "predictions" = Some (PList items)).
  { rewrite E2. unfold st1. rewrite H1. cbn.
    rewrite !lookup_insert_ne by discriminate. apply lookup_insert_eq. }
  assert (Hua : session st2 !! "user_answers" = Some (PDict ua)).
  { rewrite E2. cbn. apply lookup_insert_eq. }
  assert (Hm2 : model st2 = Reply text3 :: r4 :: rest).
  { rewrite E2. unfold st1. rewrite H1. reflexivity. }
  pose proof (final_diagnosis_page_run req3 st2 _ _ _ _ _ Hpred Hua Hm2) as H3.
  cbv zeta in H3.
  assert (Hdm : session_get (<["final_disease" := PStr (PyStr.strip text3)]> (session st2))
                  "detection_mode" (PStr "Text Only") = PStr "Text Only").
  { unfold session_get. rewrite lookup_insert_ne by discriminate.
    rewrite E2. unfold st1. rewrite H1. cbn.
    rewrite lookup_insert_ne by discriminate. rewrite lookup_insert_eq. reflexivity. }
  rewrite Hdm in H3.
  split; [rewrite H1; reflexivity|].
  split; [rewrite H2; reflexivity|].
  split; [rewrite H3; reflexivity|].
  split; [|split; [exact Hkeys | split; [exact Hget|]]].
  - unfold st3. rewrite H3. cbn [snd with_session after_generate trace].
    rewrite E2. unfold st1. rewrite H1. cbn [snd with_session after_generate trace].
    rewrite <- !app_assoc. reflexivity.
  - unfold st3. rewrite H3. reflexivity.
Qed.

(** X20: a JSON body that is not an object (a list, a string, a
    number, null) is not validated by the three JSON endpoints that read
    fields from it, nor is such a payload by the signal handler: the first
    [.get] raises [AttributeError], before any outside call. *)
Theorem non_object_is_attribute_error (data : pyval) :
  (forall kvs, data <> PDict kvs) ->
  (forall ep req st,
     ep = FinalDiagnosisApi \/ ep = FindClinics \/ ep = HealthChat ->
     body req = data ->
     handler ep req st = (Raise AttributeError, st))
  /\ (forall rooms sender, Relay.on_signal rooms sender data = Raise AttributeError).
Proof.
  intros H.
  assert (Hg : forall k dflt, Py.get data k dflt = Raise AttributeError).
  { intros k dflt. destruct data; try reflexivity. destruct (H kvs). reflexivity. }
  split.
  - intros ep req st Hep Hb. destruct Hep as [-> | [-> | ->]]; cbn [handler].
    + unfold final_diagnosis_api. rewrite Hb, bind_run, lift_run, Hg. reflexivity.
    + unfold find_clinics. rewrite Hb, bind_run, lift_run, Hg. reflexivity.
    + unfold health_chat. rewrite Hb, bind_run, lift_run, Hg. reflexivity.
  - intros rooms sender. unfold Relay.on_signal. rewrite Hg. reflexivity.
Qed.

(** X21: for a JSON object the diagnosis endpoint never answers with
    an error status: it answers 200 with a disease name and a treatment
    text after two model calls, or fails with the failure of its first
    model call. *)
Theorem final_diagnosis_api_outcomes (req : request) (st : state)
    (kvs : list (string * pyval)) :
  body req = PDict kvs ->
  let '(res, st') := final_diagnosis_api req st in
  (exists fd tr,
     res = Ret (Jsonify (PDict [("final_disease", PStr fd); ("treatment", PStr tr)]) 200)
     /\ length (trace st') = (length (trace st) + 2)%nat)
  \/ (exists p msg,
        res = Raise (UpstreamError msg)
        /\ trace st' = trace st ++ [Generated p (Fault msg)]).
Proof.
  intros Hb.
  destruct (model st) as [|[text|msg] rest] eqn:Hm.
  - unfold final_diagnosis_api. rewrite Hb, !bind_run, !lift_run. cbn [Py.get].
    rewrite !bind_run, !lift_run, bind_run. unfold generate. rewrite Hm. cbn [next answer].
    right. eauto.
  - destruct rest as [|r rest].
    + unfold final_diagnosis_api, treatment_plan, try_except, generate, lift,
        mbind, M_bind, mret, M_ret.
      rewrite Hb, Hm. cbn [Py.get next answer model trace].
      left. do 2 eexists. split; [reflexivity|]. rewrite !length_app. simpl. lia.
    + rewrite (final_diagnosis_api_run _ _ _ _ _ _ Hb Hm).
      left. do 2 eexists. split; [reflexivity|].
      cbn [after_generate trace]. rewrite !length_app. simpl. lia.
  - unfold final_diagnosis_api. rewrite Hb, !bind_run, !lift_run. cbn [Py.get].
    rewrite !bind_run, !lift_run, bind_run. unfold generate. rewrite Hm. cbn [next answer].
    right. eauto.
Qed.

(** ** Instances *)

Lemma health_chat_requires_question_witness :
  let st := mkState ∅ [Reply "unused"] [] [] in
  health_chat (mkRequest POST [] (PDict [("question", PStr "")])) st
  = (Ret (Jsonify (PDict [("error", PStr "Question is required")]) 400), st).
Proof.
  intros st.
  apply (health_chat_requires_question (mkRequest POST [] (PDict [("question", PStr "")])) st
           [("question", PStr "")] eq_refl).
  right. exists (PStr ""). split; reflexivity.
Defined.

Lemma health_chat_always_answers_witness :
  let req := mkRequest POST [] (PDict [("question", PStr "Is spotting normal?")]) in
  exists payload status st',
    health_chat req (mkState ∅ [Reply " Usually, yes. "] [] [])
    = (Ret (Jsonify payload status), st').
Proof.
  intros req.
  destruct (health_chat_always_answers req (mkState ∅ [Reply " Usually, yes. "] [] [])
              _ eq_refl) as (payload & status & st' & H & _).
  eauto.
Defined.

Lemma analyze_without_description_witness :
  let st := mkState ∅ [Reply "Since when?"] [] [] in
  fst (analyze (mkRequest POST [("description", "")] PNone) st)
  = Ret (Jsonify (PDict [("predictions", PList []);
                         ("followup_questions", PList [PStr "Since when?"])]) 200).
Proof.
  intros st.
  rewrite (analyze_without_description (mkRequest POST [("description", "")] PNone) st
             "Since when?" []); [reflexivity | right; reflexivity | reflexivity].
Defined.

Lemma scalar_answer_is_type_error_witness :
  let st := mkState ∅ [Reply "42"; Reply "Since when?"] [] [] in
  fst (analyze describing st) = Raise TypeError
  /\ fst (index describing st) = Raise TypeError
  /\ model (snd (index describing st)) = [Reply "Since when?"].
Proof.
  intros st.
  destruct (scalar_answer_is_type_error describing st "itchy red patches" "42"
              [Reply "Since when?"] (PInt 42)) as [Ha Hi];
    [reflexivity | discriminate | reflexivity | reflexivity | reflexivity |].
  rewrite Ha, (Hi eq_refl). repeat split.
Defined.

Lemma analyze_returns_items_witness :
  let st := mkState ∅ [Reply "[1, 2, 3, 4, 5, 6]"; Reply "Since when?"] [] [] in
  fst (analyze describing st)
  = Ret (Jsonify (PDict [("predictions",
                          PList [PInt 1; PInt 2; PInt 3; PInt 4; PInt 5; PInt 6]);
                         ("followup_questions", PList [PStr "Since when?"])]) 200).
Proof.
  intros st.
  rewrite (analyze_returns_items describing st "itchy red patches"
             "[1, 2, 3, 4, 5, 6]" "Since when?" []
             [PInt 1; PInt 2; PInt 3; PInt 4; PInt 5; PInt 6]);
    [reflexivity | reflexivity | discriminate | reflexivity | reflexivity].
Defined.

Lemma index_stores_flow_witness :
  let st := mkState {["user_answers" := PDict []]} [Reply "[]"; Reply "Since when?"] [] [] in
  exists st',
    index describing st = (Ret (Redirect "followup"), st')
    /\ session st' !! "followup_questions" = Some (PList [PStr "Since when?"])
    /\ session st' !! "user_answers" = Some (PDict []).
Proof.
  intros st.
  destruct (index_stores_flow describing st "itchy red patches" "[]" "Since when?" [] [])
    as (st' & Hrun & _ & Hq & _ & Hk & _);
    [reflexivity | reflexivity | discriminate | reflexivity | reflexivity |].
  exists st'. split; [exact Hrun|]. split; [exact Hq|].
  rewrite Hk by discriminate. reflexivity.
Defined.

Lemma index_then_followup_witness :
  let st := mkState ∅ [Reply "[]"; Reply "   "] [] [] in
  followup visiting (snd (index describing st))
  = (Ret (Redirect "index"), snd (index describing st)).
Proof.
  intros st.
  apply (proj1 (index_then_followup describing visiting st "itchy red patches" "[]" "   "
                  [] [] eq_refl eq_refl ltac:(discriminate) eq_refl eq_refl)).
  reflexivity.
Defined.

Lemma final_diagnosis_page_guard_witness :
  let st := mkState {["predictions" := PList []]} [Reply "unused"] [] [] in
  final_diagnosis_page visiting st = (Ret (Redirect "index"), st).
Proof.
  intros st. apply final_diagnosis_page_guard. right. reflexivity.
Defined.

Lemma final_diagnosis_then_treatment_witness :
  let st := mkState answered_session [Reply " Eczema "; Reply "plan"; Reply "- moisturise"] [] [] in
  fst (treatment visiting (snd (final_diagnosis_page visiting st)))
  = Ret (Render "treatment.html"
           [("final_disease", PStr "Eczema"); ("treatment", PStr "- moisturise")]).
Proof.
  intros st.
  destruct (final_diagnosis_then_treatment visiting visiting st (PList [PStr "Eczema"])
              (PDict [("Does it itch?", PStr "yes")]) " Eczema " (Reply "plan")
              (Reply "- moisturise") [] eq_refl eq_refl eq_refl) as [_ H].
  rewrite H. reflexivity.
Defined.

Lemma final_diagnosis_api_page_agree_witness :
  let script := [Reply " Eczema "; Fault "timeout"] in
  let req := mkRequest POST []
    (PDict [("predictions", PList [PStr "Eczema"]);
            ("user_answers", PDict [("Does it itch?", PStr "yes")])]) in
  diagnosis_of (fst (final_diagnosis_api req (mkState ∅ script [] [])))
  = diagnosis_of (fst (final_diagnosis_page visiting (mkState answered_session script [] []))).
Proof.
  intros script req.
  exact (final_diagnosis_api_page_agree req visiting (mkState ∅ script [] [])
           (mkState answered_session script [] []) _ _ _ eq_refl eq_refl eq_refl eq_refl).
Defined.

Lemma page_flow_end_to_end_witness :
  let st := mkState ∅ [Reply "[]"; Reply "Does it itch?"; Reply " Eczema "; Reply " plan "] [] [] in
  let st1 := snd (index describing st) in
  let st2 := snd (followup answering st1) in
  fst (final_diagnosis_page visiting st2)
  = Ret (Render "final_diagnosis.html"
           [("final_disease", PStr "Eczema"); ("treatment", PStr "plan");
            ("detection_mode", PStr "Text Only")]).
Proof.
  intros st st1 st2.
  destruct (page_flow_end_to_end describing answering visiting st "itchy red patches"
              "[]" "Does it itch?" " Eczema " (Reply " plan ") [] [])
    as (ua & _ & _ & H & _);
    [reflexivity | reflexivity | discriminate | reflexivity | reflexivity
    | discriminate | reflexivity |].
  exact H.
Defined.

Lemma find_clinics_failure_propagates_witness :
  let st := mkState ∅ [] [found [place "n1" "Care Trust"]; Fault "connection reset"] [] in
  fst (find_clinics at_coordinates st) = Raise (UpstreamError "connection reset").
Proof.
  intros st.
  apply (find_clinics_failure_propagates at_coordinates st (snd (find_clinics at_coordinates st))
           (fst (find_clinics at_coordinates st)) (PlaceDetails (PStr "n1")) "connection reset"
           eq_refl).
  - destruct (find_clinics at_coordinates st); reflexivity.
  - vm_compute. right. left. reflexivity.
Defined.

Lemma find_clinics_uses_given_coordinates_witness :
  let st := mkState ∅ [] [found []; found []; found []] [] in
  searches_with (PInt 28) (PInt 77) (PInt 20000)
    (Fetched (NearbySearch (PInt 28) (PInt 77) (PInt 20000) "NGO hospital")
       (found [])).
Proof.
  intros st.
  destruct (find_clinics_uses_given_coordinates at_coordinates st
              (snd (find_clinics at_coordinates st)) (fst (find_clinics at_coordinates st))
              (PDict [("lat", PInt 28); ("lng", PInt 77)])
              (Fetched (NearbySearch (PInt 28) (PInt 77) (PInt 20000) "NGO hospital")
                 (found [])) eq_refl eq_refl eq_refl)
    as (range_km & radius & lat & lng & Hr & Hm & Hlat & Hlng & Hs).
  - destruct (find_clinics at_coordinates st); reflexivity.
  - vm_compute. left. reflexivity.
  - injection Hr as <-. injection Hm as <-. injection Hlat as <-. injection Hlng as <-.
    exact Hs.
Defined.

Lemma find_clinics_uses_geocoded_coordinates_witness :
  let st := mkState ∅ [] [Reply (geocoding 28 77); found []; found []; found []] [] in
  trace (snd (find_clinics at_address st)) = []
  \/ exists r evs,
       trace (snd (find_clinics at_address st)) = Fetched (Geocode "Connaught Place") r :: evs.
Proof.
  intros st.
  destruct (find_clinics_uses_geocoded_coordinates at_address st
              (snd (find_clinics at_address st)) (fst (find_clinics at_address st))
              "Connaught Place" eq_refl eq_refl) as [H | (r & evs & H & _)].
  - destruct (find_clinics at_address st); reflexivity.
  - left. exact H.
  - right. eauto.
Defined.

Lemma find_clinics_geocode_without_coordinates_witness :
  let g := PDict [("status", PStr "OK"); ("results", PList [])] in
  let st := mkState ∅ [] [Reply g; found []] [] in
  find_clinics at_address st
  = (Raise IndexError,
     mkState ∅ [] [found []] [Fetched (Geocode "Connaught Place") (Reply g)]).
Proof.
  intros g st.
  exact (find_clinics_geocode_without_coordinates at_address st "Connaught Place"
           (PInt 5) (PInt 5000) g [found []] IndexError
           eq_refl eq_refl eq_refl eq_refl eq_refl eq_refl).
Defined.

Lemma find_clinics_lists_every_place_witness :
  let st := mkState ∅ []
    [found [place "n1" "Care Trust"]; details "1 Main Rd";
     found [place "n1" "Care Trust"]; details "1 Main Rd";
     found []] [] in
  exists cs,
    fst (find_clinics at_coordinates st) = Ret (Jsonify (PDict [("clinics", PList cs)]) 200)
    /\ map clinic_place_id cs = [PStr "n1"; PStr "n1"].
Proof.
  intros st.
  eassert (E : find_clinics at_coordinates st = (Ret (Jsonify _ 200), _))
    by (vm_compute; reflexivity).
  destruct (find_clinics_lists_every_place at_coordinates st _ _ eq_refl E)
    as (cs & [= <-] & Hids & _).
  eexists. split; [rewrite E; reflexivity | reflexivity].
Defined.

Lemma sort_clinics_stable_witness :
  let first := PDict [("category", PStr "NGO"); ("name", PStr "first")] in
  let second := PDict [("category", PStr "NGO"); ("name", PStr "second")] in
  let cs := [of_category "Private"; first; of_category "Government"; second] in
  let sorted := [first; second; of_category "Government"; of_category "Private"] in
  sort_clinics cs = Ret sorted /\ of_rank 0 sorted = [first; second].
Proof.
  intros first second cs sorted. split; [reflexivity|].
  rewrite (sort_clinics_stable cs sorted 0 eq_refl). reflexivity.
Defined.

Lemma sort_clinics_needs_category_witness :
  exists e, sort_clinics [of_category "NGO"; PDict [("name", PStr "nameless")]] = Raise e
            /\ (e = KeyError \/ e = TypeError).
Proof.
  apply (sort_clinics_needs_category _ (PDict [("name", PStr "nameless")])).
  - right. left. reflexivity.
  - intros c. discriminate.
Defined.

Lemma followup_questions_single_lines_witness :
  exists qs,
    fst (generate_followup_questions (PList []) (mkState ∅ [Reply "   "] [] [])) = Ret qs
    /\ qs = [].
Proof.
  destruct (followup_questions_single_lines (PList []) (mkState ∅ [Reply "   "] [] [])
              "   " [] eq_refl) as (qs & Hrun & _ & Hblank).
  exists qs. split; [exact Hrun | apply Hblank; reflexivity].
Defined.

Lemma non_object_is_attribute_error_witness :
  let st := mkState ∅ [Reply "unused"] [Reply PNone] [] in
  find_clinics (mkRequest POST [] (PList [])) st = (Raise AttributeError, st).
Proof.
  intros st.
  apply (proj1 (non_object_is_attribute_error (PList []) ltac:(discriminate)) FindClinics);
    [right; left; reflexivity | reflexivity].
Defined.

Lemma final_diagnosis_api_outcomes_witness :
  let req := mkRequest POST [] (PDict []) in
  let st := mkState ∅ [Fault "quota exceeded"] [] [] in
  let '(res, st') := final_diagnosis_api req st in
  (exists fd tr,
     res = Ret (Jsonify (PDict [("final_disease", PStr fd); ("treatment", PStr tr)]) 200)
     /\ length (trace st') = (length (trace st) + 2)%nat)
  \/ (exists p msg,
        res = Raise (UpstreamError msg)
        /\ trace st' = trace st ++ [Generated p (Fault msg)]).
Proof.
  intros req st. exact (final_diagnosis_api_outcomes req st [] eq_refl).
Defined.
